(** * Tempest time stepping and the Jablonowski-Williamson test case

    A shallow embedding of
    - [BaroclinicWaveJWTest] (BaroclinicWaveTest.cpp),
    - [TimestepSchemeARS343] (TimestepSchemeARS343.h),
    - [TimestepSchemeARKode] (TimestepSchemeARKode.h),
    and the properties of them that the specification states.

    C++ [double] is IEEE binary64: it is embedded as Rocq's primitive
    [float], whose [+ - * /], [sqrt], [abs] and comparisons are the IEEE
    operations rounded to nearest.  Decimal literals are rounded to the
    nearest binary64 value, as a C++ compiler does. *)

From Stdlib Require Import Floats ZArith String List Lia.
From stdpp Require Import base list.

Set Warnings "-inexact-float".
Set Default Proof Using "Type".

(** ** Outcomes of a C++ call *)

(** A call either returns, or throws the [Exception] built by the
    [_EXCEPTIONT(text)] macro, or runs into undefined behaviour by
    indexing a [double *] past the end of the array behind it. *)
Inductive Outcome (A : Type) : Type :=
| Returned (a : A)
| Thrown (text : string)
| OutOfBounds.
Arguments Returned {A} a.
Arguments Thrown {A} text.
Arguments OutOfBounds {A}.

Definition bind {A B : Type} (c : Outcome A) (k : A -> Outcome B) : Outcome B :=
  match c with
  | Returned a => k a
  | Thrown text => Thrown text
  | OutOfBounds => OutOfBounds
  end.

Notation "'let*' x ':=' c 'in' k" := (bind c (fun x => k))
  (at level 10, x name, c at level 100, k at level 200).

(** [p[i] = v] on the array behind a [double *]. *)
Definition store (p : list float) (i : nat) (v : float) : Outcome (list float) :=
  if decide (i < length p)%nat then Returned (<[i := v]> p) else OutOfBounds.

(** [p[i]] read from the array behind a [double *]. *)
Definition load (p : list float) (i : nat) : Outcome float :=
  match p !! i with
  | Some v => Returned v
  | None => OutOfBounds
  end.

(** ** Collaborators outside the verified sources *)

(** The functions of <math.h> that the test case calls.  [sqrt] and [fabs]
    are exact IEEE operations and are taken from [PrimFloat]; the others
    are the C library's and stay a parameter of the model. *)
Class CMath : Type := {
  sin : float -> float;
  cos : float -> float;
  pow : float -> float -> float;
  log : float -> float;
  exp : float -> float;
  acos : float -> float
}.

Definition fabs (x : float) : float := PrimFloat.abs x.

Definition M_PI : float := 3.14159265358979323846%float.

(** PhysicalConstants.h is not among the verified sources.  The test case only
    reads a [const PhysicalConstants &] through the const methods below,
    so the object is embedded as the values those methods return. *)
Record PhysicalConstants : Type := {
  GetEarthRadius : float;
  GetOmega : float;
  GetG : float;
  GetR : float;
  GetP0 : float;
  RhoThetaFromPressure : float -> float
}.

(** ** BaroclinicWaveJWTest *)

Module BaroclinicWaveJWTest.

Local Open Scope float_scope.

Inductive PerturbationType : Type :=
| PerturbationType_None
| PerturbationType_Exp
| PerturbationType_StreamFn.

Definition PerturbationType_Default : PerturbationType := PerturbationType_None.

Definition PerturbationType_eqb (a b : PerturbationType) : bool :=
  match a, b with
  | PerturbationType_None, PerturbationType_None => true
  | PerturbationType_Exp, PerturbationType_Exp => true
  | PerturbationType_StreamFn, PerturbationType_StreamFn => true
  | _, _ => false
  end.

Record t : Type := {
  ParamEta0 : float;
  ParamTropopauseEta : float;
  ParamT0 : float;
  ParamDeltaT : float;
  ParamLapseRate : float;
  ParamU0 : float;
  ParamUp : float;
  ParamPertLon : float;
  ParamPertLat : float;
  ParamPertR : float;
  m_dAlpha : float;
  m_fTracerOn : bool;
  m_dZtop : float;
  m_ePerturbationType : PerturbationType
}.

(** The constructor. *)
Definition new (dAlpha : float) (fTracerOn : bool) (dZtop : float)
    (ePerturbationType : PerturbationType) : t :=
  {| ParamEta0 := 0.252;
     ParamTropopauseEta := 0.2;
     ParamT0 := 288.0;
     ParamDeltaT := 4.8e5;
     ParamLapseRate := 0.005;
     ParamU0 := 35.0;
     ParamUp := 1.0;
     ParamPertLon := M_PI / 9.0;
     ParamPertLat := 2.0 * M_PI / 9.0;
     ParamPertR := 0.1;
     m_dAlpha := dAlpha;
     m_fTracerOn := fTracerOn;
     m_dZtop := dZtop;
     m_ePerturbationType := ePerturbationType |}.

Definition GetTracerCount (self : t) : Z :=
  if m_fTracerOn self then 1%Z else 0%Z.

Definition GetZtop (self : t) : float := m_dZtop self.

Definition HasReferenceState (self : t) : bool := true.

Section WithCMath.

Context {libm : CMath}.

(** The contents of a [double] local that is read through a reference
    before anything was assigned to it. *)
Variable indeterminate : float.

(** Time.h is not among the verified sources; [EvaluatePointwiseState]
    receives a [const Time &] and never looks at it. *)
Variable Time : Type.

Definition EvaluateTopography (self : t) (phys : PhysicalConstants)
    (dLon dLat : float) : float :=
  (* Calculate auxiliary eta *)
  let dAuxEta := 0.5 * M_PI * (1.0 - ParamEta0 self) in
  (* Various powers of trigonometric functions of latitude *)
  let dSinLat := sin dLat in
  let dSinLat2 := dSinLat * dSinLat in
  let dSinLat3 := dSinLat * dSinLat2 in
  let dSinLat4 := dSinLat * dSinLat3 in
  let dSinLat5 := dSinLat * dSinLat4 in
  let dSinLat6 := dSinLat * dSinLat5 in
  let dCosLat := cos dLat in
  let dCosLat2 := dCosLat * dCosLat in
  let dCosLat3 := dCosLat * dCosLat2 in
  (* Reference profiles *)
  let dRefProfile1 :=
    ParamU0 self * pow (cos dAuxEta) 1.5
      * (-2.0 * dSinLat6 * (dCosLat2 + 1.0 / 3.0) + 10.0 / 63.0) in
  let dRefProfile2 :=
    GetEarthRadius phys * GetOmega phys
      * (8.0 / 5.0 * dCosLat3 * (dSinLat2 + 2.0 / 3.0) - 0.25 * M_PI) in
  let dSurfGeopotential :=
    ParamU0 self * pow (cos dAuxEta) 1.5 * (dRefProfile1 + dRefProfile2) in
  dSurfGeopotential / GetG phys.

(** Returns the pair written to [dGeopotential] and [dTemperature]. *)
Definition CalculateGeopotentialTemperature (self : t)
    (phys : PhysicalConstants) (dEta dLon dLat : float) : float * float :=
  (* Calculate auxiliary eta *)
  let dAuxEta := 0.5 * M_PI * (dEta - ParamEta0 self) in
  (* Horizontally averaged temperature *)
  let dAvgTemperature :=
    ParamT0 self * pow dEta (GetR phys * ParamLapseRate self / GetG phys) in
  let dAvgTemperature :=
    if dEta <? ParamTropopauseEta self then
      dAvgTemperature
        + ParamDeltaT self * pow (ParamTropopauseEta self - dEta) 5.0
    else dAvgTemperature in
  (* Various powers of trigonometric functions of latitude *)
  let dSinLat := sin dLat in
  let dSinLat2 := dSinLat * dSinLat in
  let dSinLat3 := dSinLat * dSinLat2 in
  let dSinLat4 := dSinLat * dSinLat3 in
  let dSinLat5 := dSinLat * dSinLat4 in
  let dSinLat6 := dSinLat * dSinLat5 in
  let dCosLat := cos dLat in
  let dCosLat2 := dCosLat * dCosLat in
  let dCosLat3 := dCosLat * dCosLat2 in
  (* Reference profiles *)
  let dRefProfile1 :=
    ParamU0 self * pow (cos dAuxEta) 1.5
      * (-2.0 * dSinLat6 * (dCosLat2 + 1.0 / 3.0) + 10.0 / 63.0) in
  let dRefProfile2 :=
    GetEarthRadius phys * GetOmega phys
      * (8.0 / 5.0 * dCosLat3 * (dSinLat2 + 2.0 / 3.0) - 0.25 * M_PI) in
  (* Total temperature distribution *)
  let dTemperature := 2.0 * dRefProfile1 + dRefProfile2 in
  let dTemperature :=
    dAvgTemperature
      + 0.75 * dEta * M_PI * ParamU0 self / GetR phys
          * sin dAuxEta * sqrt (cos dAuxEta) * dTemperature in
  (* Geopotential distribution *)
  let dAvgGeopotential :=
    ParamT0 self * GetG phys / ParamLapseRate self
      * (1.0 - pow dEta (GetR phys * ParamLapseRate self / GetG phys)) in
  let dAvgGeopotential :=
    if dEta <? ParamTropopauseEta self then
      let dEta2 := dEta * dEta in
      let dEta3 := dEta * dEta2 in
      let dEta4 := dEta * dEta3 in
      let dEta5 := dEta * dEta4 in
      let dTropoEta := ParamTropopauseEta self in
      let dTropoEta2 := dTropoEta * dTropoEta in
      let dTropoEta3 := dTropoEta * dTropoEta2 in
      let dTropoEta4 := dTropoEta * dTropoEta3 in
      let dTropoEta5 := dTropoEta * dTropoEta4 in
      dAvgGeopotential - GetR phys * ParamDeltaT self * (
        (log (dEta / ParamTropopauseEta self) + 137.0 / 60.0) * dTropoEta5
        - 5.0 * dTropoEta4 * dEta
        + 5.0 * dTropoEta3 * dEta2
        - (10.0 / 3.0) * dTropoEta2 * dEta3
        + 5.0 / 4.0 * dTropoEta * dEta4
        - 1.0 / 5.0 * dEta5)
    else dAvgGeopotential in
  let dGeopotential :=
    dAvgGeopotential
      + ParamU0 self * pow (cos dAuxEta) 1.5 * (dRefProfile1 + dRefProfile2) in
  (dGeopotential, dTemperature).

(** *** EtaFromRLL *)

Definition MaxIterations : Z := 25.
Definition InitialEta : float := 1.0e-7.
Definition Convergence : float := 1.0e-13.

(** One pass through the body of the [for] loop, up to the test for
    convergence: the values assigned to [dNewEta], [dGeopotential] and
    [dTemperature]. *)
Definition NewtonBody (self : t) (phys : PhysicalConstants)
    (dZ dLon dLat dEta : float) : float * float * float :=
  let '(dGeopotential, dTemperature) :=
    CalculateGeopotentialTemperature self phys dEta dLon dLat in
  let dF := - GetG phys * dZ + dGeopotential in
  let dDiffF := - GetR phys / dEta * dTemperature in
  let dNewEta := dEta - dF / dDiffF in
  (dNewEta, dGeopotential, dTemperature).

(** The value of [dEta] at the start of pass [k] of the loop, when the
    passes before did not leave it. *)
Definition NewtonIterate (self : t) (phys : PhysicalConstants)
    (dZ dLon dLat : float) (k : nat) : float :=
  Nat.iter k (fun dEta => fst (fst (NewtonBody self phys dZ dLon dLat dEta)))
    InitialEta.

(** How control leaves the [for] loop: through the [return] in its body,
    or past its end with the variables as they then are. *)
Inductive LoopExit : Type :=
| EarlyReturn (dNewEta dGeopotential dTemperature : float)
| FellThrough (i : Z) (dEta dGeopotential dTemperature : float).

(** [for (; i < MaxIterations; i++)], by recursion on the number
    [MaxIterations - i] of passes that remain. *)
Fixpoint EtaFromRLL_for (self : t) (phys : PhysicalConstants)
    (dZ dLon dLat : float) (remaining : nat)
    (i : Z) (dEta dGeopotential dTemperature : float) : LoopExit :=
  match remaining with
  | O => FellThrough i dEta dGeopotential dTemperature
  | S remaining' =>
      let '(dNewEta, dGeopotential, dTemperature) :=
        NewtonBody self phys dZ dLon dLat dEta in
      if fabs (dEta - dNewEta) <? Convergence then
        EarlyReturn dNewEta dGeopotential dTemperature
      else
        EtaFromRLL_for self phys dZ dLon dLat remaining'
          (i + 1)%Z dNewEta dGeopotential dTemperature
  end.

(** Takes the contents of [dGeopotential] and [dTemperature] on entry and
    returns the function's value with their contents on exit. *)
Definition EtaFromRLL (self : t) (phys : PhysicalConstants)
    (dZ dLon dLat dGeopotential dTemperature : float)
    : Outcome (float * float * float) :=
  (* Buffer variables *)
  let dEta := InitialEta in
  (* Iterate until convergence is achieved *)
  match EtaFromRLL_for self phys dZ dLon dLat (Z.to_nat MaxIterations)
          0%Z dEta dGeopotential dTemperature with
  | EarlyReturn dNewEta dGeopotential dTemperature =>
      Returned (dNewEta, dGeopotential, dTemperature)
  | FellThrough i dEta dGeopotential dTemperature =>
      (* Check for convergence failure *)
      if (i =? MaxIterations)%Z then
        Thrown "Maximum number of iterations exceeded."
      else if (1.0 <? dEta) || (dEta <? 0.0) then
        Thrown "Invalid Eta value"
      else
        Returned (dEta, dGeopotential, dTemperature)
  end.

(** *** EvaluateReferenceState *)

(** Takes the array behind [dState] and returns it as the call leaves it. *)
Definition EvaluateReferenceState (self : t) (phys : PhysicalConstants)
    (dZ dLon dLat : float) (dState : list float) : Outcome (list float) :=
  (* Pressure coordinate *)
  let dGeopotential := indeterminate in
  let dTemperature := indeterminate in
  let* r := EtaFromRLL self phys dZ dLon dLat dGeopotential dTemperature in
  let '(dEta, dGeopotential, dTemperature) := r in
  (* Calculate zonal velocity *)
  let dUlon :=
    ParamU0 self * pow (cos (0.5 * M_PI * (dEta - ParamEta0 self))) 1.5
      * sin (2.0 * dLat) * sin (2.0 * dLat) in
  let* dState := store dState 0 dUlon in
  (* Calculate rho and theta *)
  let dPressure := GetP0 phys * dEta in
  let dRho := dPressure / (GetR phys * dTemperature) in
  let dRhoTheta := RhoThetaFromPressure phys dPressure in
  let* dState := store dState 2 (dRhoTheta / dRho) in
  let* dState := store dState 4 dRho in
  Returned dState.

(** *** EvaluatePointwiseState *)

(** The great-circle distance of a point from the centre of the
    perturbation, over the radius of the perturbation: the final value of
    the local [dGreatCircleR]. *)
Definition GreatCircleR (self : t) (dLon dLat : float) : float :=
  acos (sin (ParamPertLat self) * sin dLat
        + cos (ParamPertLat self) * cos dLat * cos (dLon - ParamPertLon self))
    / ParamPertR self.

(** Takes the arrays behind [dState] and [dTracer] and returns them as the
    call leaves them. *)
Definition EvaluatePointwiseState (self : t) (phys : PhysicalConstants)
    (time : Time) (dZ dLon dLat : float) (dState dTracer : list float)
    : Outcome (list float * list float) :=
  (* Evaluate the reference state at this point *)
  let* dState := EvaluateReferenceState self phys dZ dLon dLat dState in
  (* Add perturbation in zonal velocity *)
  if PerturbationType_eqb (m_ePerturbationType self) PerturbationType_Exp then
    let dGreatCircleR :=
      acos (sin (ParamPertLat self) * sin dLat
            + cos (ParamPertLat self) * cos dLat
                * cos (dLon - ParamPertLon self)) in
    let dGreatCircleR := dGreatCircleR / ParamPertR self in
    if dGreatCircleR <? 1.0 then
      let* dState0 := load dState 0 in
      let* dState :=
        store dState 0
          (dState0 + ParamUp self * exp (- dGreatCircleR * dGreatCircleR)) in
      Returned (dState, dTracer)
    else Returned (dState, dTracer)
  else Returned (dState, dTracer).

End WithCMath.

End BaroclinicWaveJWTest.

(** ** The state container and the time stepping interface *)

(** A state buffer is one instance of the field data, flattened; the state
    container holds the instances, and instance 0 is the current state. *)
Definition StateBuffer : Type := list float.
Definition StateContainer : Type := list StateBuffer.

Definition GetInstance (c : StateContainer) (ix : nat) : Outcome StateBuffer :=
  match c !! ix with
  | Some b => Returned b
  | None => OutOfBounds
  end.

Definition SetInstance (c : StateContainer) (ix : nat) (b : StateBuffer)
    : Outcome StateContainer :=
  if decide (ix < length c)%nat then Returned (<[ix := b]> c) else OutOfBounds.

Definition Scale (a : float) (x : StateBuffer) : StateBuffer :=
  map (fun xi => (a * xi)%float) x.

Definition Add (x y : StateBuffer) : StateBuffer :=
  zip_with (fun xi yi => (xi + yi)%float) x y.

(** [LinearCombine [(a1, x1); ...; (an, xn)]] is [a1 x1 + ... + an xn]. *)
Fixpoint LinearCombine (terms : list (float * StateBuffer)) : StateBuffer :=
  match terms with
  | [] => []
  | [(a, x)] => Scale a x
  | (a, x) :: rest => Add (Scale a x) (LinearCombine rest)
  end.

(** The virtual interface of TimestepScheme.h, as far as the two headers
    that are verified override it.  [Initialize] and [Step] work on the scheme
    object and on the state container of the model the scheme refers to. *)
Class TimestepScheme (Time Scheme : Type) : Type := {
  GetComponentDataInstances : Scheme -> Z;
  GetTracerDataInstances : Scheme -> Z;
  Initialize : Scheme -> StateContainer -> Outcome (Scheme * StateContainer);
  Step : bool -> bool -> Time -> float -> Scheme -> StateContainer ->
         Outcome (Scheme * StateContainer)
}.

(** The operations that change a scheme after its construction. *)
Inductive Operation (Time : Type) : Type :=
| CallInitialize
| CallStep (fFirstStep fLastStep : bool) (time : Time) (dDeltaT : float).
Arguments CallInitialize {Time}.
Arguments CallStep {Time} fFirstStep fLastStep time dDeltaT.

Definition Apply {Time Scheme : Type} {TS : TimestepScheme Time Scheme}
    (op : Operation Time) (s : Scheme) (c : StateContainer)
    : Outcome (Scheme * StateContainer) :=
  match op with
  | CallInitialize => Initialize s c
  | CallStep fFirstStep fLastStep time dDeltaT =>
      Step fFirstStep fLastStep time dDeltaT s c
  end.

(** A sequence of operations; the first that does not return ends it. *)
Fixpoint ApplyAll {Time Scheme : Type} {TS : TimestepScheme Time Scheme}
    (ops : list (Operation Time)) (s : Scheme) (c : StateContainer)
    : Outcome (Scheme * StateContainer) :=
  match ops with
  | [] => Returned (s, c)
  | op :: ops' =>
      let* sc := Apply op s c in
      ApplyAll ops' (fst sc) (snd sc)
  end.

(** Modelled from the spec: the driver loop of the Model, which is not
    among the verified sources.  [Initialize] is invoked once before the
    first step, then every scheduled step is delegated to the scheme; a
    failure is fatal and aborts the run.  The result carries the log of
    the operations that were entered. *)
Fixpoint StepLoop {Time Scheme : Type} {TS : TimestepScheme Time Scheme}
    (steps : list (Time * float)) (fFirstStep : bool)
    (s : Scheme) (c : StateContainer)
    : Outcome (Scheme * StateContainer) * list (Operation Time) :=
  match steps with
  | [] => (Returned (s, c), [])
  | (time, dDeltaT) :: steps' =>
      let fLastStep := match steps' with [] => true | _ => false end in
      let op := CallStep fFirstStep fLastStep time dDeltaT in
      match Apply op s c with
      | Returned (s', c') =>
          let '(r, log) := StepLoop steps' false s' c' in (r, op :: log)
      | Thrown text => (Thrown text, [op])
      | OutOfBounds => (OutOfBounds, [op])
      end
  end.

(** Modelled from the spec: the run of the Model, [Initialize] first and
    then the loop of steps. *)
Definition Go {Time Scheme : Type} {TS : TimestepScheme Time Scheme}
    (steps : list (Time * float)) (s : Scheme) (c : StateContainer)
    : Outcome (Scheme * StateContainer) * list (Operation Time) :=
  match Initialize s c with
  | Returned (s', c') =>
      let '(r, log) := StepLoop steps true s' c' in (r, CallInitialize :: log)
  | Thrown text => (Thrown text, [CallInitialize])
  | OutOfBounds => (OutOfBounds, [CallInitialize])
  end.

Definition IsStep {Time : Type} (op : Operation Time) : bool :=
  match op with
  | CallInitialize => false
  | CallStep _ _ _ _ => true
  end.

(** Modelled from the spec: the RHS evaluator contract that the Model
    offers to a scheme (section 6 of the specification; Model.h is not
    among the verified sources).  [SolveImplicit] may fail to converge,
    which is fatal. *)
Record RHSEvaluator (Time : Type) : Type := {
  EvaluateExplicitRHS : StateBuffer -> Time -> StateBuffer;
  EvaluateImplicitRHS : StateBuffer -> Time -> StateBuffer;
  SolveImplicit : StateBuffer -> float -> Time -> Outcome StateBuffer
}.
Arguments EvaluateExplicitRHS {Time} _ _ _.
Arguments EvaluateImplicitRHS {Time} _ _ _.
Arguments SolveImplicit {Time} _ _ _ _.

(** ** TimestepSchemeARS343 *)

Module TimestepSchemeARS343.

Local Open Scope float_scope.

(** The data members of the class: the stage combination buffers, and the
    model the scheme was constructed on. *)
Record t (Time : Type) : Type := {
  model : RHSEvaluator Time;
  m_dK0Combo : StateBuffer;
  m_du1fCombo : StateBuffer;
  m_dK1Combo : StateBuffer;
  m_dKh1Combo : StateBuffer;
  m_du2fCombo : StateBuffer;
  m_dK2Combo : StateBuffer;
  m_dKh2Combo : StateBuffer;
  m_du3fCombo : StateBuffer;
  m_dK3Combo : StateBuffer;
  m_dKh3Combo : StateBuffer;
  m_du4fCombo : StateBuffer
}.
Arguments model {Time} _.
Arguments m_dK0Combo {Time} _.
Arguments m_du1fCombo {Time} _.
Arguments m_dK1Combo {Time} _.
Arguments m_dKh1Combo {Time} _.
Arguments m_du2fCombo {Time} _.
Arguments m_dK2Combo {Time} _.
Arguments m_dKh2Combo {Time} _.
Arguments m_du3fCombo {Time} _.
Arguments m_dK3Combo {Time} _.
Arguments m_dKh3Combo {Time} _.
Arguments m_du4fCombo {Time} _.

(** The static coefficient tables that the header declares; their values
    are in TimestepSchemeARS343.cpp, outside the verified sources. *)
Record Coefficients : Type := {
  m_dgamma : float;
  m_ddelta : float;
  m_dTimeCf : nat -> float;
  m_dExpCf : nat -> nat -> float;
  m_dImpCf : nat -> nat -> float
}.

Section WithTime.

Context {Time : Type}.
Variable cf : Coefficients.

(** The header: [return 10;]. *)
Definition GetComponentDataInstances (self : t Time) : Z := 10.

(** The header: [return 10;]. *)
Definition GetTracerDataInstances (self : t Time) : Z := 10.

(** Modelled from the spec: TimestepScheme.h is not among the verified
    sources.  The class does not override [Initialize], which the
    specification calls optional: the scheme has nothing to set up. *)
Definition Initialize (self : t Time) (c : StateContainer)
    : Outcome (t Time * StateContainer) :=
  Returned (self, c).

(** Modelled from the spec: the body of [Step], which is in
    TimestepSchemeARS343.cpp, outside the verified sources.  Section 4.2 of the
    specification gives the four stages; the weights of its linear
    combinations are the entries of the explicit and implicit tables. *)
Definition Step (fFirstStep fLastStep : bool) (time : Time) (dDeltaT : float)
    (self : t Time) (c : StateContainer) : Outcome (t Time * StateContainer) :=
  let rhs := model self in
  let* u0 := GetInstance c 0 in
  (* Stage 0 *)
  let K0 := Scale (m_dExpCf cf 1 0) (EvaluateExplicitRHS rhs u0 time) in
  let* u1f := SolveImplicit rhs K0 (m_dgamma cf * dDeltaT) time in
  (* Stage 1 *)
  let Kh1 := EvaluateExplicitRHS rhs u1f time in
  let K1 := LinearCombine [(m_dImpCf cf 2 1, K0); (m_dExpCf cf 2 1, Kh1)] in
  let* u2f := SolveImplicit rhs K1 (m_dTimeCf cf 1 * dDeltaT) time in
  (* Stage 2 *)
  let Kh2 := EvaluateExplicitRHS rhs u2f time in
  let K2 :=
    LinearCombine [(m_dImpCf cf 3 1, K0); (m_dImpCf cf 3 2, K1);
                   (m_dExpCf cf 3 1, Kh1); (m_dExpCf cf 3 2, Kh2)] in
  let* u3f := SolveImplicit rhs K2 (m_dTimeCf cf 2 * dDeltaT) time in
  (* Final stage *)
  let Kh3 := EvaluateExplicitRHS rhs u3f time in
  let K3 :=
    LinearCombine [(m_dImpCf cf 4 1, K0); (m_dImpCf cf 4 2, K1);
                   (m_dImpCf cf 4 3, K2)] in
  let u4f :=
    LinearCombine [(1, u0); (dDeltaT, K3);
                   (dDeltaT * m_dExpCf cf 4 1, Kh1);
                   (dDeltaT * m_dExpCf cf 4 2, Kh2);
                   (dDeltaT * m_dExpCf cf 4 3, Kh3)] in
  let* c := SetInstance c 0 u4f in
  Returned ({| model := rhs;
               m_dK0Combo := K0; m_du1fCombo := u1f;
               m_dK1Combo := K1; m_dKh1Combo := Kh1; m_du2fCombo := u2f;
               m_dK2Combo := K2; m_dKh2Combo := Kh2; m_du3fCombo := u3f;
               m_dK3Combo := K3; m_dKh3Combo := Kh3; m_du4fCombo := u4f |}, c).

#[export] Instance scheme : TimestepScheme Time (t Time) := {
  GetComponentDataInstances := GetComponentDataInstances;
  GetTracerDataInstances := GetTracerDataInstances;
  Initialize := Initialize;
  Step := Step
}.

End WithTime.

End TimestepSchemeARS343.

(** ** TimestepSchemeARKode *)

Module TimestepSchemeARKode.

Local Open Scope Z_scope.

Record ARKodeCommandLineVariables : Type := {
  nvectors : Z;
  rtol : float;
  atol : float;
  FullyExplicit : bool;
  AAFP : bool;
  AAFPAccelVec : Z;
  NonlinIters : Z;
  LinIters : Z;
  ARKodeButcherTable : Z;
  SetButcherTable : Z
}.

(** Modelled from the spec: the states of the adapter (section 4.3). *)
Inductive AdapterState : Type :=
| Unconfigured
| Initialized
| Stepping.

(** Modelled from the spec: what the external ARKode library provides,
    none of which is among the verified sources.
    - [TableSelected id]: the integer [id] selects a table (the members are
      plain [int]s; the encoding of "no table" is the library adapter's);
    - [KnowsTable id]: the library has a Butcher table with this ID;
    - [Memory]: the solver instance behind [ARKodeMem];
    - [Create]: the solver instance made for a view of the state;
    - [Advance mem y time dt]: the single-step advance to [time + dt], or
      [None] when the solver reports a failure. *)
Record Library (Time : Type) : Type := {
  TableSelected : Z -> bool;
  KnowsTable : Z -> bool;
  Memory : Type;
  Create : StateContainer -> Memory;
  Advance : Memory -> StateBuffer -> Time -> float ->
            option (Memory * StateBuffer)
}.
Arguments TableSelected {Time} _ _.
Arguments KnowsTable {Time} _ _.
Arguments Memory {Time} _.
Arguments Create {Time} _ _.
Arguments Advance {Time} _ _ _ _ _.

Section WithLibrary.

Context {Time : Type}.
Variable lib : Library Time.

(** The data members of the class.  [m_Y] is a view of the current state
    and has no contents of its own; [m_eState] is the adapter state of the
    specification. *)
Record t : Type := {
  ARKodeMem : option (Memory lib);
  m_iNVectors : Z;
  m_iARKodeButcherTable : Z;
  m_iSetButcherTable : Z;
  m_dAbsTol : float;
  m_dRelTol : float;
  m_fFullyExplicit : bool;
  m_fFullyImplicit : bool;
  m_fFixedStepSize : bool;
  m_fAAFP : bool;
  m_iAAFPAccelVec : Z;
  m_iNonlinIters : Z;
  m_iLinIters : Z;
  m_eState : AdapterState
}.

(** Modelled from the spec: the constructor, which is in
    TimestepSchemeARKode.cpp, outside the verified sources.  It takes the
    command line variables into the members of the same meaning; the two
    flags that the structure has no entry for are off. *)
Definition new (ARKodeVars : ARKodeCommandLineVariables) : t :=
  {| ARKodeMem := None;
     m_iNVectors := nvectors ARKodeVars;
     m_iARKodeButcherTable := ARKodeButcherTable ARKodeVars;
     m_iSetButcherTable := SetButcherTable ARKodeVars;
     m_dAbsTol := atol ARKodeVars;
     m_dRelTol := rtol ARKodeVars;
     m_fFullyExplicit := FullyExplicit ARKodeVars;
     m_fFullyImplicit := false;
     m_fFixedStepSize := false;
     m_fAAFP := AAFP ARKodeVars;
     m_iAAFPAccelVec := AAFPAccelVec ARKodeVars;
     m_iNonlinIters := NonlinIters ARKodeVars;
     m_iLinIters := LinIters ARKodeVars;
     m_eState := Unconfigured |}.

(** The header: [return m_iNVectors;]. *)
Definition GetComponentDataInstances (self : t) : Z := m_iNVectors self.

(** The header: [return m_iNVectors;]. *)
Definition GetTracerDataInstances (self : t) : Z := m_iNVectors self.

Definition with_solver (self : t) (mem : Memory lib) (st : AdapterState) : t :=
  {| ARKodeMem := Some mem;
     m_iNVectors := m_iNVectors self;
     m_iARKodeButcherTable := m_iARKodeButcherTable self;
     m_iSetButcherTable := m_iSetButcherTable self;
     m_dAbsTol := m_dAbsTol self;
     m_dRelTol := m_dRelTol self;
     m_fFullyExplicit := m_fFullyExplicit self;
     m_fFullyImplicit := m_fFullyImplicit self;
     m_fFixedStepSize := m_fFixedStepSize self;
     m_fAAFP := m_fAAFP self;
     m_iAAFPAccelVec := m_iAAFPAccelVec self;
     m_iNonlinIters := m_iNonlinIters self;
     m_iLinIters := m_iLinIters self;
     m_eState := st |}.

(** The two sources of a Butcher table. *)
Definition NamedTableActive (self : t) : bool :=
  TableSelected lib (m_iARKodeButcherTable self).

Definition CustomTableActive (self : t) : bool :=
  TableSelected lib (m_iSetButcherTable self).

(** Modelled from the spec: the body of [Initialize], which is in
    TimestepSchemeARKode.cpp, outside the verified sources (sections 4.3,
    7 and 8 of the specification): the solver instance is created on a
    view of the state, then the configuration is applied; a named table
    together with a custom one, and a named table that the library does not
    know, are configuration errors, which are fatal. *)
Definition Initialize (self : t) (c : StateContainer)
    : Outcome (t * StateContainer) :=
  let mem := Create lib c in
  if NamedTableActive self && CustomTableActive self then
    Thrown "ARKodeButcherTable and SetButcherTable are both set."
  else if NamedTableActive self
          && negb (KnowsTable lib (m_iARKodeButcherTable self)) then
    Thrown "Unknown ARKode Butcher table."
  else
    Returned (with_solver self mem Initialized, c).

(** Modelled from the spec: the body of [Step], which is in
    TimestepSchemeARKode.cpp, outside the verified sources (section 4.3 of
    the specification): the step is delegated to the solver's single-step
    advance, whose failure is fatal.
    The specification has no transition for a step of an adapter that was
    not initialized; there is no solver instance to delegate to then. *)
Definition Step (fFirstStep fLastStep : bool) (time : Time) (dDeltaT : float)
    (self : t) (c : StateContainer) : Outcome (t * StateContainer) :=
  match ARKodeMem self with
  | None => Thrown "ARKode is not initialized."
  | Some mem =>
      let* y := GetInstance c 0 in
      match Advance lib mem y time dDeltaT with
      | None => Thrown "ARKode step failed."
      | Some (mem', y') =>
          let* c := SetInstance c 0 y' in
          Returned (with_solver self mem' Stepping, c)
      end
  end.

(** What the operations leave of the configuration of an adapter. *)
Definition SameConfiguration (s s' : t) : Prop :=
  m_iNVectors s' = m_iNVectors s
  /\ m_iARKodeButcherTable s' = m_iARKodeButcherTable s
  /\ m_iSetButcherTable s' = m_iSetButcherTable s.

#[export] Instance scheme : TimestepScheme Time t := {
  GetComponentDataInstances := GetComponentDataInstances;
  GetTracerDataInstances := GetTracerDataInstances;
  Initialize := Initialize;
  Step := Step
}.

End WithLibrary.

End TimestepSchemeARKode.

(** ** A reference C math library

    <math.h> is outside the repository, and every general statement below
    holds for any [CMath].  To run the model at a concrete point an
    instance is needed: the functions here follow the textbook scheme
    (argument reduction, then a truncated series) and agree with the usual
    C libraries to a few units in the last place. *)

Module RefMath.

Local Open Scope float_scope.

(** Truncation of a finite [float] towards zero. *)
Definition trunc (x : float) : Z :=
  match Prim2SF x with
  | S754_finite s m e =>
      let a := (if 0 <=? e then Z.shiftl (Zpos m) e
                else Z.shiftr (Zpos m) (- e))%Z in
      if s then (- a)%Z else a
  | _ => 0%Z
  end.

Definition of_Z (k : Z) : float :=
  if (k <? 0)%Z then - of_uint63 (Uint63.of_Z (- k))
  else of_uint63 (Uint63.of_Z k).

(** The integer nearest to [x]. *)
Definition nearest (x : float) : Z :=
  if x <? 0 then trunc (x - 0.5) else trunc (x + 0.5).

Definition finite (x : float) : bool := abs x <? infinity.

Definition ln2_hi : float := 0x1.62e42feep-1.
Definition ln2_lo : float := 0x1.a39ef35793c76p-33.

(** [1 + r/k * (1 + r/(k+1) * (1 + ...))], nested [n] deep. *)
Fixpoint exp_series (r : float) (n : nat) (k : float) : float :=
  match n with
  | O => 1
  | S n' => 1 + r / k * exp_series r n' (k + 1)
  end.

Definition exp (x : float) : float :=
  if negb (x =? x) then nan
  else if 710 <? x then infinity
  else if x <? -746 then 0
  else
    let k := nearest (x / 0x1.62e42fefa39efp-1) in
    let r := x - of_Z k * ln2_hi - of_Z k * ln2_lo in
    Z.ldexp (exp_series r 20 1) k.

(** [1/k + s2 * (1/(k+2) + s2 * (1/(k+4) + ...))], nested [n] deep. *)
Fixpoint atanh_series (s2 : float) (n : nat) (k : float) : float :=
  match n with
  | O => 1 / k
  | S n' => 1 / k + s2 * atanh_series s2 n' (k + 2)
  end.

Definition log (x : float) : float :=
  if negb (x =? x) then nan
  else if x <? 0 then nan
  else if x =? 0 then neg_infinity
  else if x =? infinity then infinity
  else
    let '(m, e) := Z.frexp x in
    let '(m, e) := if m <? 0x1.6a09e667f3bcdp-1 then (2 * m, (e - 1)%Z)
                   else (m, e) in
    let s := (m - 1) / (m + 1) in
    of_Z e * ln2_hi + (2 * s * atanh_series (s * s) 16 1 + of_Z e * ln2_lo).

Definition pow (x y : float) : float :=
  if y =? 0 then 1
  else if x =? 1 then 1
  else if 0 <? x then exp (y * log x)
  else if x =? 0 then (if 0 <? y then 0 else if y <? 0 then infinity else nan)
  else if x <? 0 then
    if andb (finite y) (of_Z (trunc y) =? y) then
      let p := exp (y * log (- x)) in
      if Z.odd (trunc y) then - p else p
    else nan
  else nan.

Definition pio2_1 : float := 0x1.921fb544p+0.
Definition pio2_2 : float := 0x1.0b4611a6p-34.
Definition pio2_3 : float := 0x1.3198a2ep-69.

(** [1 - r2/(k(k+1)) * (1 - r2/((k+2)(k+3)) * (1 - ...))], nested [n] deep. *)
Fixpoint trig_series (r2 : float) (n : nat) (k : float) : float :=
  match n with
  | O => 1
  | S n' => 1 - r2 / (k * (k + 1)) * trig_series r2 n' (k + 2)
  end.

Definition sin_poly (r : float) : float := r * trig_series (r * r) 12 2.
Definition cos_poly (r : float) : float := trig_series (r * r) 12 1.

(** [x = k * pi/2 + r] with [|r| <= pi/4], for [x] of moderate size. *)
Definition reduce (x : float) : Z * float :=
  let k := nearest (x / 0x1.921fb54442d18p+0) in
  (k, x - of_Z k * pio2_1 - of_Z k * pio2_2 - of_Z k * pio2_3).

Definition sin (x : float) : float :=
  if negb (finite x) then nan
  else
    let '(k, r) := reduce x in
    match (k mod 4)%Z with
    | 0%Z => sin_poly r
    | 1%Z => cos_poly r
    | 2%Z => - sin_poly r
    | _ => - cos_poly r
    end.

Definition cos (x : float) : float :=
  if negb (finite x) then nan
  else
    let '(k, r) := reduce x in
    match (k mod 4)%Z with
    | 0%Z => cos_poly r
    | 1%Z => - sin_poly r
    | 2%Z => - cos_poly r
    | _ => sin_poly r
    end.

(** The Maclaurin series of [asin], [n] terms from [term / k] on; the
    next term has [term * z2 * k / (k + 1)] over [k + 2]. *)
Fixpoint asin_series (z2 : float) (n : nat) (k term : float) : float :=
  match n with
  | O => 0
  | S n' => term / k + asin_series z2 n' (k + 2) (term * z2 * k / (k + 1))
  end.

Definition asin_small (z : float) : float := asin_series (z * z) 40 1 z.

Definition acos (x : float) : float :=
  if negb (x =? x) then nan
  else if 1 <? abs x then nan
  else if 0.5 <? x then 2 * asin_small (sqrt ((1 - x) / 2))
  else if x <? -0.5 then
    0x1.921fb54442d18p+1 - 2 * asin_small (sqrt ((1 + x) / 2))
  else 0x1.921fb54442d18p+0 - asin_small x.

End RefMath.

Definition ReferenceCMath : CMath :=
  {| sin := RefMath.sin; cos := RefMath.cos; pow := RefMath.pow;
     log := RefMath.log; exp := RefMath.exp; acos := RefMath.acos |}.

(** The constants of the Earth, with the values of the Jablonowski and
    Williamson test, and the ideal gas relation
    [rho theta = p0 / R * (p / p0) ^ (cv / cp)] for [RhoThetaFromPressure]. *)
Definition Earth : PhysicalConstants :=
  {| GetEarthRadius := 6.371229e6;
     GetOmega := 7.29212e-5;
     GetG := 9.80616;
     GetR := 287.0;
     GetP0 := 100000.0;
     RhoThetaFromPressure := fun dPressure =>
       (100000.0 / 287.0
        * RefMath.pow (dPressure / 100000.0) (717.5 / 1004.5))%float |}.

(** ** Concrete objects to run the model on *)

(** The test case as [main] builds it from its default command line, and
    the same with [--pert Exp]. *)
Definition JW : BaroclinicWaveJWTest.t :=
  BaroclinicWaveJWTest.new 0 false 10000
    BaroclinicWaveJWTest.PerturbationType_None.

Definition JWExp : BaroclinicWaveJWTest.t :=
  BaroclinicWaveJWTest.new 0 false 10000
    BaroclinicWaveJWTest.PerturbationType_Exp.

(** The test equation of the specification's end-to-end scenario: explicit
    right-hand side [f(y) = -y], implicit right-hand side [g(y) = 0], so
    that the implicit solve returns the perturbation. *)
Definition DecayModel : RHSEvaluator float :=
  {| EvaluateExplicitRHS := fun y _ => map PrimFloat.opp y;
     EvaluateImplicitRHS := fun y _ => map (fun _ => 0%float) y;
     SolveImplicit := fun y _ _ => Returned y |}.

(** A coefficient table to run [Step] with; only [m_dgamma] has the value
    of the published scheme. *)
Definition SampleCoefficients : TimestepSchemeARS343.Coefficients :=
  {| TimestepSchemeARS343.m_dgamma := 0.4358665215084590;
     TimestepSchemeARS343.m_ddelta := 0.5;
     TimestepSchemeARS343.m_dTimeCf := fun _ => 0.5%float;
     TimestepSchemeARS343.m_dExpCf := fun _ _ => 0.25%float;
     TimestepSchemeARS343.m_dImpCf := fun _ _ => 0.25%float |}.

Definition SampleARS343 : TimestepSchemeARS343.t float :=
  {| TimestepSchemeARS343.model := DecayModel;
     TimestepSchemeARS343.m_dK0Combo := [];
     TimestepSchemeARS343.m_du1fCombo := [];
     TimestepSchemeARS343.m_dK1Combo := [];
     TimestepSchemeARS343.m_dKh1Combo := [];
     TimestepSchemeARS343.m_du2fCombo := [];
     TimestepSchemeARS343.m_dK2Combo := [];
     TimestepSchemeARS343.m_dKh2Combo := [];
     TimestepSchemeARS343.m_du3fCombo := [];
     TimestepSchemeARS343.m_dK3Combo := [];
     TimestepSchemeARS343.m_dKh3Combo := [];
     TimestepSchemeARS343.m_du4fCombo := [] |}.

(** A stand-in for the ARKode library: a table is selected by an ID that
    is not negative, the library knows the IDs up to 34, and its advance
    steps [y' = -y] by one explicit Euler step. *)
Definition SampleLibrary : TimestepSchemeARKode.Library float :=
  {| TimestepSchemeARKode.TableSelected := fun id => (0 <=? id)%Z;
     TimestepSchemeARKode.KnowsTable := fun id => (0 <=? id)%Z && (id <=? 34)%Z;
     TimestepSchemeARKode.Memory := unit;
     TimestepSchemeARKode.Create := fun _ => tt;
     TimestepSchemeARKode.Advance := fun mem y _ dDeltaT =>
       Some (mem, map (fun yi => (yi - dDeltaT * yi)%float) y) |}.

Definition SampleVariables (iARKodeButcherTable iSetButcherTable : Z)
    : TimestepSchemeARKode.ARKodeCommandLineVariables :=
  {| TimestepSchemeARKode.nvectors := 50;
     TimestepSchemeARKode.rtol := 1.0e-6;
     TimestepSchemeARKode.atol := 1.0e-11;
     TimestepSchemeARKode.FullyExplicit := false;
     TimestepSchemeARKode.AAFP := false;
     TimestepSchemeARKode.AAFPAccelVec := 0;
     TimestepSchemeARKode.NonlinIters := 0;
     TimestepSchemeARKode.LinIters := 0;
     TimestepSchemeARKode.ARKodeButcherTable := iARKodeButcherTable;
     TimestepSchemeARKode.SetButcherTable := iSetButcherTable |}.

(** ** Notions used in the statements below *)

(** A value of the specification of binary64 that is a number: a zero or a
    finite non-zero value, not an infinity and not NaN. *)
Definition SFfinite (x : spec_float) : bool :=
  match x with
  | S754_zero _ | S754_finite _ _ _ => true
  | S754_infinity _ | S754_nan => false
  end.

(** The convergence test of [EtaFromRLL] in pass [k] of its loop: the
    iterate the pass starts with against the one it computes. *)
Definition ConvergedAt {libm : CMath} (self : BaroclinicWaveJWTest.t)
    (phys : PhysicalConstants) (dZ dLon dLat : float) (k : nat) : bool :=
  (fabs (BaroclinicWaveJWTest.NewtonIterate self phys dZ dLon dLat k
         - BaroclinicWaveJWTest.NewtonIterate self phys dZ dLon dLat (S k))
   <? BaroclinicWaveJWTest.Convergence)%float.

(** The first of the passes of the loop in which the test holds. *)
Definition FirstConvergence {libm : CMath} (self : BaroclinicWaveJWTest.t)
    (phys : PhysicalConstants) (dZ dLon dLat : float) : option nat :=
  List.find (ConvergedAt self phys dZ dLon dLat)
    (seq 0 (Z.to_nat BaroclinicWaveJWTest.MaxIterations)).


(** * Properties *)

(** ** Arrays *)

Lemma bind_Returned {A B : Type} (c : Outcome A) (k : A -> Outcome B) (b : B) :
  bind c k = Returned b -> exists a, c = Returned a /\ k a = Returned b.
Proof. destruct c as [a| |]; simpl; intros H; try discriminate; eauto. Qed.

Lemma store_Returned (p p' : list float) (i : nat) (v : float) :
  store p i v = Returned p' -> (i < length p)%nat /\ p' = <[i := v]> p.
Proof.
  unfold store. destruct (decide (i < length p)%nat); intros H; [|discriminate].
  injection H as <-. auto.
Qed.

(** ** BaroclinicWaveJWTest *)

Section BaroclinicWaveJWTestFacts.

Import BaroclinicWaveJWTest.

Context {libm : CMath}.
Variable indeterminate : float.
Variable Time : Type.
Variable self : BaroclinicWaveJWTest.t.
Variable phys : PhysicalConstants.

Local Open Scope float_scope.

(** The loop either leaves through its [return], in a pass [k] whose
    iterates met the convergence test, or falls through after all the
    passes that remained, with [i] advanced by as many. *)
Lemma EtaFromRLL_for_exit (dZ dLon dLat : float) (f : float -> float)
    (Hf : forall e, f e = fst (fst (NewtonBody self phys dZ dLon dLat e)))
    (remaining : nat) :
  forall (i : Z) (dEta dGeopotential dTemperature : float),
    (exists g t,
        EtaFromRLL_for self phys dZ dLon dLat remaining
          i dEta dGeopotential dTemperature
        = FellThrough (i + Z.of_nat remaining)
            (Nat.iter remaining f dEta) g t)
    \/ (exists k : nat,
        (k < remaining)%nat /\
        let e := Nat.iter k f dEta in
        let r := NewtonBody self phys dZ dLon dLat e in
        EtaFromRLL_for self phys dZ dLon dLat remaining
          i dEta dGeopotential dTemperature
        = EarlyReturn (fst (fst r)) (snd (fst r)) (snd r)
        /\ (fabs (e - fst (fst r)) <? Convergence) = true).
Proof.
  induction remaining as [|n IH]; intros i dEta g0 t0.
  - left. exists g0, t0. simpl. by rewrite Z.add_0_r.
  - cbn [EtaFromRLL_for].
    destruct (NewtonBody self phys dZ dLon dLat dEta) as [[e' g'] t'] eqn:Hbody.
    destruct (fabs (dEta - e') <? Convergence) eqn:Hconv.
    + right. exists 0%nat. split; [lia|].
      change (Nat.iter 0 f dEta) with dEta. cbn zeta.
      rewrite Hbody. simpl. auto.
    + assert (Hnext : f dEta = e') by (rewrite Hf, Hbody; reflexivity).
      destruct (IH (i + 1)%Z e' g' t') as [(g & t & Hfell)|(k & Hk & Hret & Hc)].
      * left. exists g, t. rewrite Hfell. rewrite Nat.iter_succ_r, Hnext.
        f_equal. lia.
      * right. exists (S k). split; [lia|].
        rewrite Nat.iter_succ_r, Hnext. auto.
Qed.

(** The second check after the loop is never reached: control falls
    through the loop only with [i = MaxIterations]. *)
Lemma EtaFromRLL_never_invalid_eta (dZ dLon dLat g0 t0 : float) :
  EtaFromRLL self phys dZ dLon dLat g0 t0 <> Thrown "Invalid Eta value".
Proof.
  unfold EtaFromRLL.
  destruct (EtaFromRLL_for_exit dZ dLon dLat _ (fun e => eq_refl)
              (Z.to_nat MaxIterations) 0%Z InitialEta g0 t0)
    as [(g & t & ->)|(k & _ & -> & _)]; [|discriminate].
  change (0 + Z.of_nat (Z.to_nat MaxIterations) =? MaxIterations)%Z with true.
  discriminate.
Qed.

(** C2: for every input, [EtaFromRLL] either throws, or returns within the
    25 passes of its loop the Newton iterate [k + 1], for a [k < 25] at
    which iterate [k] and iterate [k + 1] differ by less than [1.0e-13]
    (together with the geopotential and temperature computed in that
    pass).  It returns no value that did not pass the convergence test. *)
Theorem EtaFromRLL_converged_or_fatal (dZ dLon dLat g0 t0 : float) :
  EtaFromRLL self phys dZ dLon dLat g0 t0
    = Thrown "Maximum number of iterations exceeded."
  \/ exists k : nat,
       (Z.of_nat k < MaxIterations)%Z /\
       let dEta := NewtonIterate self phys dZ dLon dLat k in
       let dNewEta := NewtonIterate self phys dZ dLon dLat (S k) in
       let gt := CalculateGeopotentialTemperature self phys dEta dLon dLat in
       EtaFromRLL self phys dZ dLon dLat g0 t0
         = Returned (dNewEta, fst gt, snd gt)
       /\ (fabs (dEta - dNewEta) <? 1.0e-13) = true.
Proof.
  unfold EtaFromRLL.
  destruct (EtaFromRLL_for_exit dZ dLon dLat _ (fun e => eq_refl)
              (Z.to_nat MaxIterations) 0%Z InitialEta g0 t0)
    as [(g & t & ->)|(k & Hk & -> & Hc)].
  - left. reflexivity.
  - right. exists k. split; [unfold MaxIterations in *; lia|].
    cbn zeta in *. unfold NewtonIterate. rewrite Nat.iter_succ.
    split; [|exact Hc].
    set (e := Nat.iter k _ InitialEta). unfold NewtonBody.
    destruct (CalculateGeopotentialTemperature self phys e dLon dLat) as [g t].
    reflexivity.
Qed.

(** What a normal return of [EvaluateReferenceState] amounts to: the three
    stores, in the order of the source, on an array that has room for
    them. *)
Lemma EvaluateReferenceState_Returned (dZ dLon dLat : float)
    (dState dState' : list float) :
  EvaluateReferenceState indeterminate self phys dZ dLon dLat dState
    = Returned dState' ->
  (4 < length dState)%nat /\
  exists dUlon dTheta dRho : float,
    dState' = <[4%nat := dRho]> (<[2%nat := dTheta]> (<[0%nat := dUlon]> dState)).
Proof.
  unfold EvaluateReferenceState.
  intros ([[dEta g] t] & _ & H)%bind_Returned.
  apply bind_Returned in H as (s0 & H0 & H).
  apply bind_Returned in H as (s2 & H2 & H).
  apply bind_Returned in H as (s4 & H4 & H).
  injection H as <-.
  apply store_Returned in H0 as [_ ->].
  apply store_Returned in H2 as [_ ->].
  apply store_Returned in H4 as [Hlen ->].
  rewrite !length_insert in Hlen. eauto.
Qed.

(** C8: when [EvaluateReferenceState] returns normally, the array behind
    [dState] has its length, and every entry other than 0, 2 and 4 has the
    value it had before the call. *)
Theorem EvaluateReferenceState_frame (dZ dLon dLat : float)
    (dState dState' : list float)
    (Hret : EvaluateReferenceState indeterminate self phys dZ dLon dLat dState
            = Returned dState') :
  length dState' = length dState /\
  forall i : nat, i <> 0%nat -> i <> 2%nat -> i <> 4%nat ->
    dState' !! i = dState !! i.
Proof.
  apply EvaluateReferenceState_Returned in Hret
    as (_ & dUlon & dTheta & dRho & ->).
  split.
  - by rewrite !length_insert.
  - intros i H0 H2 H4.
    rewrite !list_lookup_insert_ne by congruence. reflexivity.
Qed.

(** C9: when [EvaluateReferenceState] returns the array [dRef],
    [EvaluatePointwiseState] returns too, with [dTracer] as it was passed.
    Unless the perturbation type is [Exp], the state is [dRef]; in any case
    it agrees with [dRef] outside entry 0, and it differs from [dRef] only
    when the type is [Exp] and the great-circle distance over the radius is
    below 1. *)
Theorem EvaluatePointwiseState_frame (time : Time) (dZ dLon dLat : float)
    (dState dTracer dRef : list float)
    (Href : EvaluateReferenceState indeterminate self phys dZ dLon dLat dState
            = Returned dRef) :
  exists dState' : list float,
    EvaluatePointwiseState indeterminate Time self phys time dZ dLon dLat
      dState dTracer = Returned (dState', dTracer)
    /\ (m_ePerturbationType self <> PerturbationType_Exp -> dState' = dRef)
    /\ (forall i : nat, i <> 0%nat -> dState' !! i = dRef !! i)
    /\ (dState' <> dRef ->
        m_ePerturbationType self = PerturbationType_Exp
        /\ (GreatCircleR self dLon dLat <? 1.0) = true).
Proof.
  unfold EvaluatePointwiseState. rewrite Href. cbn [bind].
  fold (GreatCircleR self dLon dLat).
  destruct (m_ePerturbationType self) eqn:Htype; cbn [PerturbationType_eqb];
    try (exists dRef; repeat split; congruence).
  destruct (GreatCircleR self dLon dLat <? 1.0) eqn:Hnear;
    [|exists dRef; repeat split; congruence].
  apply EvaluateReferenceState_Returned in Href as (Hlen & u & th & rho & ->).
  set (dRef := <[4%nat := rho]> (<[2%nat := th]> (<[0%nat := u]> dState))).
  assert (Hlen' : (0 < length dRef)%nat)
    by (subst dRef; rewrite !length_insert; lia).
  unfold load. destruct (dRef !! 0%nat) as [v|] eqn:H0.
  - cbn [bind]. unfold store. rewrite decide_True by exact Hlen'. cbn [bind].
    eexists. split; [reflexivity|]. split; [congruence|]. split; [|auto].
    intros i Hi. by apply list_lookup_insert_ne.
  - apply lookup_ge_None in H0. lia.
Qed.

(** C10: the longitude does not enter the topography. *)
Theorem EvaluateTopography_longitude (dLon1 dLon2 dLat : float) :
  EvaluateTopography self phys dLon1 dLat
  = EvaluateTopography self phys dLon2 dLat.
Proof. reflexivity. Qed.

End BaroclinicWaveJWTestFacts.

(** If the reference state is not returned, the call ends as
    [EvaluateReferenceState] did and nothing was stored. *)
Lemma EvaluatePointwiseState_propagates {libm : CMath}
    (indeterminate : float) (Time : Type) (self : BaroclinicWaveJWTest.t)
    (phys : PhysicalConstants) (time : Time) (dZ dLon dLat : float)
    (dState dTracer : list float) :
  (forall text,
      BaroclinicWaveJWTest.EvaluateReferenceState indeterminate self phys
        dZ dLon dLat dState = Thrown text ->
      BaroclinicWaveJWTest.EvaluatePointwiseState indeterminate Time self phys
        time dZ dLon dLat dState dTracer = Thrown text)
  /\ (BaroclinicWaveJWTest.EvaluateReferenceState indeterminate self phys
        dZ dLon dLat dState = OutOfBounds ->
      BaroclinicWaveJWTest.EvaluatePointwiseState indeterminate Time self phys
        time dZ dLon dLat dState dTracer = OutOfBounds).
Proof.
  unfold BaroclinicWaveJWTest.EvaluatePointwiseState.
  split; [intros text H|intros H]; rewrite H; reflexivity.
Qed.

(** *** Runs at concrete points *)

(** C3 (not met by the code): [EtaFromRLL] throws "Invalid Eta value" on
    no input; and at sea level on the equator, which is below the surface
    of the test case, it returns an eta above 1 and throws nothing. *)
Theorem EtaFromRLL_returns_eta_above_one :
  (forall (libm : CMath) (self : BaroclinicWaveJWTest.t)
          (phys : PhysicalConstants) (dZ dLon dLat g0 t0 : float),
      BaroclinicWaveJWTest.EtaFromRLL self phys dZ dLon dLat g0 t0
      <> Thrown "Invalid Eta value")
  /\ exists dEta dGeopotential dTemperature : float,
      BaroclinicWaveJWTest.EtaFromRLL (libm := ReferenceCMath) JW Earth
        0 0 0 0 0 = Returned (dEta, dGeopotential, dTemperature)
      /\ (1.0 <? dEta)%float = true.
Proof.
  split.
  - intros. apply EtaFromRLL_never_invalid_eta.
  - do 3 eexists. split.
    + vm_compute. reflexivity.
    + vm_compute. reflexivity.
Qed.

(** Far above the model top the iteration runs into NaN, and the budget of
    passes is used up. *)
Lemma EtaFromRLL_budget_exceeded :
  BaroclinicWaveJWTest.EtaFromRLL (libm := ReferenceCMath) JW Earth
    1.0e6 0 0 0 0 = Thrown "Maximum number of iterations exceeded.".
Proof. vm_compute. reflexivity. Qed.

Lemma EvaluateReferenceState_frame_witness :
  let dState := [0; 0; 0; 0; 0; 7]%float in
  exists dState' : list float,
    BaroclinicWaveJWTest.EvaluateReferenceState (libm := ReferenceCMath) 0
      JW Earth 1000 0 0.7 dState = Returned dState'
    /\ length dState' = length dState
    /\ forall i : nat, i <> 0%nat -> i <> 2%nat -> i <> 4%nat ->
         dState' !! i = dState !! i.
Proof.
  cbn zeta. eexists. split.
  - vm_compute. reflexivity.
  - apply (EvaluateReferenceState_frame (libm := ReferenceCMath) 0 JW Earth
             1000 0 0.7).
    vm_compute. reflexivity.
Defined.

Lemma EvaluatePointwiseState_frame_witness :
  let dState := [0; 0; 0; 0; 0; 7]%float in
  let dTracer := [3; 4]%float in
  let dLon := (M_PI / 9.0)%float in
  let dLat := (2.0 * M_PI / 9.0)%float in
  exists dRef : list float,
    BaroclinicWaveJWTest.EvaluateReferenceState (libm := ReferenceCMath) 0
      JWExp Earth 5000 dLon dLat dState = Returned dRef
    /\ exists dState' : list float,
        BaroclinicWaveJWTest.EvaluatePointwiseState (libm := ReferenceCMath) 0
          unit JWExp Earth tt 5000 dLon dLat dState dTracer
        = Returned (dState', dTracer)
        /\ (BaroclinicWaveJWTest.m_ePerturbationType JWExp
            <> BaroclinicWaveJWTest.PerturbationType_Exp -> dState' = dRef)
        /\ (forall i : nat, i <> 0%nat -> dState' !! i = dRef !! i)
        /\ (dState' <> dRef ->
            BaroclinicWaveJWTest.m_ePerturbationType JWExp
            = BaroclinicWaveJWTest.PerturbationType_Exp
            /\ (BaroclinicWaveJWTest.GreatCircleR (libm := ReferenceCMath)
                  JWExp dLon dLat <? 1.0)%float = true).
Proof.
  cbn zeta. eexists. split.
  - vm_compute. reflexivity.
  - apply (EvaluatePointwiseState_frame (libm := ReferenceCMath) 0 unit
             JWExp Earth tt 5000).
    vm_compute. reflexivity.
Defined.

(** At the centre of the perturbation entry 0 does differ from the
    reference state: by [ParamUp]. *)
Lemma EvaluatePointwiseState_perturbs_centre :
  let dLon := (M_PI / 9.0)%float in
  let dLat := (2.0 * M_PI / 9.0)%float in
  exists (u u' : float) (rest : list float),
    BaroclinicWaveJWTest.EvaluateReferenceState (libm := ReferenceCMath) 0
      JWExp Earth 5000 dLon dLat [0; 0; 0; 0; 0]%float = Returned (u :: rest)
    /\ BaroclinicWaveJWTest.EvaluatePointwiseState (libm := ReferenceCMath) 0
         unit JWExp Earth tt 5000 dLon dLat [0; 0; 0; 0; 0]%float []
       = Returned (u' :: rest, [])
    /\ (u' - u =? 1.0)%float = true.
Proof.
  cbn zeta. do 3 eexists. split; [|split].
  - vm_compute. reflexivity.
  - vm_compute. reflexivity.
  - vm_compute. reflexivity.
Qed.

(** ** TimestepSchemeARS343 *)

(** C1: both queries of the ARS343 scheme return 10, whatever the object,
    also when they are called through the interface. *)
Theorem ARS343_instances {Time : Type}
    (cf : TimestepSchemeARS343.Coefficients)
    (self : TimestepSchemeARS343.t Time) :
  TimestepSchemeARS343.GetComponentDataInstances self = 10%Z
  /\ TimestepSchemeARS343.GetTracerDataInstances self = 10%Z
  /\ @GetComponentDataInstances Time _
       (TimestepSchemeARS343.scheme cf) self = 10%Z
  /\ @GetTracerDataInstances Time _
       (TimestepSchemeARS343.scheme cf) self = 10%Z.
Proof. repeat split. Qed.

(** C6: [Step] of the ARS343 scheme gives the same scheme and container
    for any two choices of [fFirstStep] and [fLastStep]. *)
Theorem ARS343_Step_ignores_flags {Time : Type}
    (cf : TimestepSchemeARS343.Coefficients)
    (fFirstStep1 fLastStep1 fFirstStep2 fLastStep2 : bool)
    (time : Time) (dDeltaT : float)
    (self : TimestepSchemeARS343.t Time) (c : StateContainer) :
  TimestepSchemeARS343.Step cf fFirstStep1 fLastStep1 time dDeltaT self c
  = TimestepSchemeARS343.Step cf fFirstStep2 fLastStep2 time dDeltaT self c.
Proof. reflexivity. Qed.

(** ** The driver *)

(** A run whose [Initialize] throws has entered nothing else. *)
Lemma Go_Initialize_Thrown {Time Scheme : Type} {TS : TimestepScheme Time Scheme}
    (steps : list (Time * float)) (s : Scheme) (c : StateContainer)
    (text : string) :
  Initialize s c = Thrown text ->
  Go steps s c = (Thrown text, [CallInitialize]).
Proof. intros H. unfold Go. rewrite H. reflexivity. Qed.

(** ** TimestepSchemeARKode *)

Section ARKodeFacts.

Import TimestepSchemeARKode.

Context {Time : Type}.
Variable lib : Library Time.

Lemma Initialize_configuration (s s' : t lib) (c c' : StateContainer) :
  TimestepSchemeARKode.Initialize lib s c = Returned (s', c') ->
  SameConfiguration lib s s'.
Proof.
  unfold TimestepSchemeARKode.Initialize.
  destruct (NamedTableActive lib s && CustomTableActive lib s); [discriminate|].
  destruct (NamedTableActive lib s && negb _); [discriminate|].
  intros [= <- _]. by repeat split.
Qed.

Lemma Step_configuration (fFirstStep fLastStep : bool) (time : Time)
    (dDeltaT : float) (s s' : t lib) (c c' : StateContainer) :
  TimestepSchemeARKode.Step lib fFirstStep fLastStep time dDeltaT s c
    = Returned (s', c') ->
  SameConfiguration lib s s'.
Proof.
  unfold TimestepSchemeARKode.Step.
  destruct (ARKodeMem lib s) as [mem|]; [|discriminate].
  intros (y & _ & H)%bind_Returned.
  destruct (Advance lib mem y time dDeltaT) as [[mem' y']|]; [|discriminate].
  apply bind_Returned in H as (c1 & _ & [= <- _]). by repeat split.
Qed.

Lemma ApplyAll_configuration (ops : list (Operation Time)) :
  forall (s s' : t lib) (c c' : StateContainer),
    ApplyAll (TS := scheme lib) ops s c = Returned (s', c') ->
    SameConfiguration lib s s'.
Proof.
  induction ops as [|op ops IH]; intros s s' c c'; cbn [ApplyAll].
  - intros [= <- _]. by repeat split.
  - intros ([s1 c1] & Hop & Hrest)%bind_Returned.
    apply IH in Hrest as (Hn & Ha & Hs). cbn [fst] in *.
    assert (SameConfiguration lib s s1) as (Hn1 & Ha1 & Hs1).
    { destruct op; cbn [Apply] in Hop.
      - eapply Initialize_configuration. exact Hop.
      - eapply Step_configuration. exact Hop. }
    repeat split; congruence.
Qed.

(** A successful [Initialize] had at most one table source. *)
Lemma Initialize_exclusive (s s' : t lib) (c c' : StateContainer) :
  TimestepSchemeARKode.Initialize lib s c = Returned (s', c') ->
  NamedTableActive lib s && CustomTableActive lib s = false.
Proof.
  unfold TimestepSchemeARKode.Initialize.
  destruct (NamedTableActive lib s && CustomTableActive lib s);
    [discriminate|reflexivity].
Qed.

(** C4: when the named table that is selected is one the library does not
    know, [Initialize] throws, and the run of the driver ends there: the
    only operation it entered is [Initialize], no [Step]. *)
Theorem ARKode_unknown_table_fatal (self : t lib) (c : StateContainer)
    (steps : list (Time * float))
    (Hselected : NamedTableActive lib self = true)
    (Hunknown : KnowsTable lib (m_iARKodeButcherTable lib self) = false) :
  (exists text, TimestepSchemeARKode.Initialize lib self c = Thrown text)
  /\ (exists text,
        Go (TS := scheme lib) steps self c
        = (Thrown text, [CallInitialize]))
  /\ existsb IsStep
       (snd (Go (TS := scheme lib) steps self c)) = false.
Proof.
  assert (Hinit : exists text,
             TimestepSchemeARKode.Initialize lib self c = Thrown text).
  { unfold TimestepSchemeARKode.Initialize.
    rewrite Hselected, Hunknown. cbn [andb negb].
    destruct (CustomTableActive lib self); eauto. }
  destruct Hinit as [text Hinit].
  assert (Hgo : Go (TS := scheme lib) steps self c
                = (Thrown text, [CallInitialize])).
  { apply Go_Initialize_Thrown. exact Hinit. }
  split; [eauto|]. split; [eauto|]. rewrite Hgo. reflexivity.
Qed.

(** C5: an adapter with a named table and a custom table both selected is
    rejected by [Initialize]; and after an [Initialize] that returned,
    whatever operations follow, the two sources are not both active. *)
Theorem ARKode_tables_exclusive (self : t lib) (c : StateContainer) :
  (NamedTableActive lib self = true ->
   CustomTableActive lib self = true ->
   exists text, TimestepSchemeARKode.Initialize lib self c = Thrown text)
  /\ (forall (ops : list (Operation Time)) (s' : t lib) (c' : StateContainer),
        ApplyAll (TS := scheme lib) (CallInitialize :: ops) self c
          = Returned (s', c') ->
        NamedTableActive lib s' && CustomTableActive lib s' = false).
Proof.
  split.
  - intros Hn Hc. unfold TimestepSchemeARKode.Initialize.
    rewrite Hn, Hc. cbn [andb]. eauto.
  - intros ops s' c' Hrun.
    pose proof (ApplyAll_configuration _ _ _ _ _ Hrun) as (_ & Ha & Hs).
    cbn [ApplyAll Apply] in Hrun.
    apply bind_Returned in Hrun as ([s1 c1] & Hinit & _).
    apply Initialize_exclusive in Hinit.
    unfold NamedTableActive, CustomTableActive in *. by rewrite Ha, Hs.
Qed.

End ARKodeFacts.

(** C7: for both schemes, after any sequence of [Initialize] and [Step]
    calls that return, the two queries return what they returned on the
    scheme as it was constructed. *)
Theorem instances_stable :
  (forall (Time : Type) (cf : TimestepSchemeARS343.Coefficients)
          (ops : list (Operation Time))
          (s s' : TimestepSchemeARS343.t Time) (c c' : StateContainer),
      ApplyAll (TS := TimestepSchemeARS343.scheme cf) ops s c
        = Returned (s', c') ->
      TimestepSchemeARS343.GetComponentDataInstances s'
        = TimestepSchemeARS343.GetComponentDataInstances s
      /\ TimestepSchemeARS343.GetTracerDataInstances s'
        = TimestepSchemeARS343.GetTracerDataInstances s)
  /\ (forall (Time : Type) (lib : TimestepSchemeARKode.Library Time)
             (ops : list (Operation Time))
             (s s' : TimestepSchemeARKode.t lib) (c c' : StateContainer),
      ApplyAll (TS := TimestepSchemeARKode.scheme lib) ops s c
        = Returned (s', c') ->
      TimestepSchemeARKode.GetComponentDataInstances lib s'
        = TimestepSchemeARKode.GetComponentDataInstances lib s
      /\ TimestepSchemeARKode.GetTracerDataInstances lib s'
        = TimestepSchemeARKode.GetTracerDataInstances lib s).
Proof.
  split.
  - intros. split; reflexivity.
  - intros Time lib ops s s' c c' Hrun.
    apply ApplyAll_configuration in Hrun as (Hn & _).
    unfold TimestepSchemeARKode.GetComponentDataInstances,
      TimestepSchemeARKode.GetTracerDataInstances. auto.
Qed.

(** *** Runs of the sample schemes *)

Lemma ARKode_unknown_table_fatal_witness :
  let self := TimestepSchemeARKode.new SampleLibrary (SampleVariables 99 (-1)) in
  let c := [[1%float]] in
  let steps := [(0, 0.1); (0.1, 0.1)]%float in
  TimestepSchemeARKode.NamedTableActive SampleLibrary self = true
  /\ TimestepSchemeARKode.KnowsTable SampleLibrary
       (TimestepSchemeARKode.m_iARKodeButcherTable SampleLibrary self) = false
  /\ (exists text,
        TimestepSchemeARKode.Initialize SampleLibrary self c = Thrown text)
  /\ (exists text,
        Go (TS := TimestepSchemeARKode.scheme SampleLibrary) steps self c
        = (Thrown text, [CallInitialize]))
  /\ existsb IsStep
       (snd (Go (TS := TimestepSchemeARKode.scheme SampleLibrary) steps self c))
     = false.
Proof.
  cbn zeta. split; [reflexivity|]. split; [reflexivity|].
  apply (ARKode_unknown_table_fatal SampleLibrary); reflexivity.
Defined.

Lemma ARKode_tables_exclusive_witness :
  let both := TimestepSchemeARKode.new SampleLibrary (SampleVariables 3 1) in
  let named := TimestepSchemeARKode.new SampleLibrary (SampleVariables 3 (-1)) in
  let c := [[1%float]] in
  let ops := [CallInitialize; CallStep true true 0%float 0.1%float] in
  (exists text,
      TimestepSchemeARKode.Initialize SampleLibrary both c = Thrown text)
  /\ exists s' c',
      ApplyAll (TS := TimestepSchemeARKode.scheme SampleLibrary) ops named c
        = Returned (s', c')
      /\ TimestepSchemeARKode.NamedTableActive SampleLibrary s'
         && TimestepSchemeARKode.CustomTableActive SampleLibrary s' = false.
Proof.
  intros both named c ops. split.
  - apply (proj1 (ARKode_tables_exclusive SampleLibrary both c)); reflexivity.
  - do 2 eexists. split.
    + vm_compute. reflexivity.
    + eapply (proj2 (ARKode_tables_exclusive SampleLibrary named c)
                [CallStep true true 0%float 0.1%float]).
      vm_compute. reflexivity.
Defined.

Lemma instances_stable_witness :
  let c := [[1%float]] in
  let ops := [CallInitialize; CallStep true false 0%float 0.1%float;
              CallStep false true 0.1%float 0.1%float] in
  let arkode := TimestepSchemeARKode.new SampleLibrary (SampleVariables 3 (-1)) in
  (exists s' c',
      ApplyAll (TS := TimestepSchemeARS343.scheme SampleCoefficients)
        ops SampleARS343 c = Returned (s', c')
      /\ TimestepSchemeARS343.GetComponentDataInstances s'
         = TimestepSchemeARS343.GetComponentDataInstances SampleARS343
      /\ TimestepSchemeARS343.GetTracerDataInstances s'
         = TimestepSchemeARS343.GetTracerDataInstances SampleARS343)
  /\ (exists s' c',
      ApplyAll (TS := TimestepSchemeARKode.scheme SampleLibrary)
        ops arkode c = Returned (s', c')
      /\ TimestepSchemeARKode.GetComponentDataInstances SampleLibrary s'
         = TimestepSchemeARKode.GetComponentDataInstances SampleLibrary arkode
      /\ TimestepSchemeARKode.GetTracerDataInstances SampleLibrary s'
         = TimestepSchemeARKode.GetTracerDataInstances SampleLibrary arkode).
Proof.
  intros c ops arkode. split.
  - do 2 eexists. split.
    + vm_compute. reflexivity.
    + eapply (proj1 instances_stable float SampleCoefficients ops
                SampleARS343 _ c).
      vm_compute. reflexivity.
  - do 2 eexists. split.
    + vm_compute. reflexivity.
    + eapply (proj2 instances_stable float SampleLibrary ops arkode _ c).
      vm_compute. reflexivity.
Defined.

(** * Further properties of the test case *)

(** ** Binary64 arithmetic *)

Section FloatFacts.

Local Open Scope float_scope.

Lemma SFcompare_refl_finite (s : bool) (m : positive) (e : Z) :
  SFcompare (S754_finite s m e) (S754_finite s m e) = Some Eq.
Proof.
  cbn [SFcompare]. rewrite Z.compare_refl.
  change (Pos.compare_cont Eq m m) with (Pos.compare m m).
  rewrite Pos.compare_refl. destruct s; reflexivity.
Qed.

Lemma is_finite_spec (x : float) : is_finite x = SFfinite (Prim2SF x).
Proof.
  unfold is_finite, is_nan, is_infinity.
  rewrite !FloatAxioms.eqb_spec, FloatAxioms.abs_spec.
  change (Prim2SF infinity) with (S754_infinity false).
  destruct (Prim2SF x) as [s|s| |s m e]; try reflexivity;
    try (destruct s; reflexivity).
  cbn [SFabs SFfinite]. unfold SFeqb.
  rewrite SFcompare_refl_finite. reflexivity.
Qed.

Lemma float_finite_sub (x y : float) :
  is_finite (x - y) = true -> is_finite x = true /\ is_finite y = true.
Proof.
  rewrite !is_finite_spec, FloatAxioms.sub_spec.
  destruct (Prim2SF x) as [sx|sx| |sx mx ex], (Prim2SF y) as [sy|sy| |sy my ey];
    try (intros _; split; reflexivity);
    try destruct sx; try destruct sy; discriminate.
Qed.

Lemma float_finite_add (x y : float) :
  is_finite (x + y) = true -> is_finite x = true /\ is_finite y = true.
Proof.
  rewrite !is_finite_spec, FloatAxioms.add_spec.
  destruct (Prim2SF x) as [sx|sx| |sx mx ex], (Prim2SF y) as [sy|sy| |sy my ey];
    try (intros _; split; reflexivity);
    try destruct sx; try destruct sy; discriminate.
Qed.

Lemma float_finite_mul (x y : float) :
  is_finite (x * y) = true -> is_finite x = true /\ is_finite y = true.
Proof.
  rewrite !is_finite_spec, FloatAxioms.mul_spec.
  destruct (Prim2SF x) as [sx|sx| |sx mx ex], (Prim2SF y) as [sy|sy| |sy my ey];
    try (intros _; split; reflexivity); discriminate.
Qed.

Lemma float_finite_div (x y : float) :
  is_finite (x / y) = true -> is_finite x = true.
Proof.
  rewrite !is_finite_spec, FloatAxioms.div_spec.
  destruct (Prim2SF x) as [sx|sx| |sx mx ex], (Prim2SF y) as [sy|sy| |sy my ey];
    try (intros _; reflexivity); discriminate.
Qed.

Lemma float_finite_opp (x : float) : is_finite (- x) = is_finite x.
Proof.
  rewrite !is_finite_spec, FloatAxioms.opp_spec.
  destruct (Prim2SF x); reflexivity.
Qed.

(** A difference that compares below anything is a number. *)
Lemma float_abs_ltb_finite (d c : float) :
  (abs d <? c) = true -> is_finite d = true.
Proof.
  rewrite is_finite_spec, FloatAxioms.ltb_spec, FloatAxioms.abs_spec.
  unfold SFltb.
  destruct (Prim2SF d) as [s|s| |s m e]; try (intros _; reflexivity);
    destruct (Prim2SF c) as [s'|s'| |s' m' e']; try destruct s'; discriminate.
Qed.

Lemma binary_round_aux_opp (s : bool) (m e : Z) (l : location) :
  binary_round_aux prec emax (negb s) m e l
  = SFopp (binary_round_aux prec emax s m e l).
Proof.
  unfold binary_round_aux.
  destruct (shr_fexp prec emax m e l) as [mrs' e'].
  destruct (shr_fexp prec emax _ e' loc_Exact) as [mrs'' e''].
  destruct (shr_m mrs''); [reflexivity| |reflexivity].
  destruct (e'' <=? emax - prec)%Z; reflexivity.
Qed.

Lemma float_mul_opp_l (x y : float) : - x * y = - (x * y).
Proof.
  apply Prim2SF_inj.
  rewrite FloatAxioms.opp_spec, !FloatAxioms.mul_spec, FloatAxioms.opp_spec.
  unfold SF64mul.
  destruct (Prim2SF x) as [sx|sx| |sx mx ex], (Prim2SF y) as [sy|sy| |sy my ey];
    cbn [SFopp SFmul]; rewrite <- ?Bool.negb_xorb_l; try reflexivity.
  apply binary_round_aux_opp.
Qed.

Lemma float_mul_opp_r (x y : float) : x * - y = - (x * y).
Proof.
  apply Prim2SF_inj.
  rewrite FloatAxioms.opp_spec, !FloatAxioms.mul_spec, FloatAxioms.opp_spec.
  unfold SF64mul.
  destruct (Prim2SF x) as [sx|sx| |sx mx ex], (Prim2SF y) as [sy|sy| |sy my ey];
    cbn [SFopp SFmul]; rewrite <- ?Bool.negb_xorb_r; try reflexivity.
  apply binary_round_aux_opp.
Qed.

Lemma float_opp_involutive (x : float) : - - x = x.
Proof.
  apply Prim2SF_inj. rewrite !FloatAxioms.opp_spec.
  destruct (Prim2SF x); cbn [SFopp]; rewrite ?Bool.negb_involutive; reflexivity.
Qed.

End FloatFacts.

(** ** The Newton iteration of EtaFromRLL *)

Section EtaFromRLLFacts.

Import BaroclinicWaveJWTest.

Context {libm : CMath}.

Local Open Scope float_scope.

Lemma NewtonIterate_S (self : BaroclinicWaveJWTest.t)
    (phys : PhysicalConstants) (dZ dLon dLat : float) (k : nat) :
  NewtonIterate self phys dZ dLon dLat (S k)
  = fst (fst (NewtonBody self phys dZ dLon dLat
                (NewtonIterate self phys dZ dLon dLat k))).
Proof. unfold NewtonIterate. by rewrite Nat.iter_succ. Qed.

(** The loop, started in pass [m] with the iterate of that pass, leaves in
    the first of its passes in which the test holds. *)
Lemma EtaFromRLL_for_first (self : BaroclinicWaveJWTest.t)
    (phys : PhysicalConstants) (dZ dLon dLat : float) (remaining : nat) :
  forall (m : nat) (i : Z) (g t : float),
    match List.find (ConvergedAt self phys dZ dLon dLat) (seq m remaining) with
    | Some k =>
        let r := NewtonBody self phys dZ dLon dLat
                   (NewtonIterate self phys dZ dLon dLat k) in
        EtaFromRLL_for self phys dZ dLon dLat remaining i
          (NewtonIterate self phys dZ dLon dLat m) g t
        = EarlyReturn (fst (fst r)) (snd (fst r)) (snd r)
    | None =>
        exists g' t',
          EtaFromRLL_for self phys dZ dLon dLat remaining i
            (NewtonIterate self phys dZ dLon dLat m) g t
          = FellThrough (i + Z.of_nat remaining) 
              (NewtonIterate self phys dZ dLon dLat (m + remaining)) g' t'
    end.
Proof.
  induction remaining as [|n IH]; intros m i g t.
  - cbn [seq List.find EtaFromRLL_for]. exists g, t.
    by rewrite Z.add_0_r, Nat.add_0_r.
  - cbn [seq List.find EtaFromRLL_for]. unfold ConvergedAt at 1.
    rewrite NewtonIterate_S.
    specialize (IH (S m) (i + 1)%Z). rewrite NewtonIterate_S in IH.
    destruct (NewtonBody self phys dZ dLon dLat
                (NewtonIterate self phys dZ dLon dLat m))
      as [[e' g'] t'] eqn:Hbody.
    cbn [fst snd] in *.
    destruct (fabs (NewtonIterate self phys dZ dLon dLat m - e') <? Convergence).
    + cbn zeta. rewrite Hbody. reflexivity.
    + specialize (IH g' t').
      destruct (List.find _ (seq (S m) n)) as [k|]; [exact IH|].
      destruct IH as (g'' & t'' & ->). exists g'', t''.
      f_equal; [lia|f_equal; lia].
Qed.

(** The loop does not look at the contents that [dGeopotential] and
    [dTemperature] have when it is entered with a pass to go. *)
Lemma EtaFromRLL_for_overwrites (self : BaroclinicWaveJWTest.t)
    (phys : PhysicalConstants) (dZ dLon dLat : float) (n : nat) (i : Z)
    (dEta g t g' t' : float) :
  EtaFromRLL_for self phys dZ dLon dLat (S n) i dEta g t
  = EtaFromRLL_for self phys dZ dLon dLat (S n) i dEta g' t'.
Proof. reflexivity. Qed.

Lemma EtaFromRLL_overwrites (self : BaroclinicWaveJWTest.t)
    (phys : PhysicalConstants) (dZ dLon dLat g t g' t' : float) :
  EtaFromRLL self phys dZ dLon dLat g t
  = EtaFromRLL self phys dZ dLon dLat g' t'.
Proof.
  unfold EtaFromRLL. change (Z.to_nat MaxIterations) with (S 24).
  by rewrite (EtaFromRLL_for_overwrites _ _ _ _ _ _ _ _ g t g' t').
Qed.

(** Two calls whose loop bodies compute the same have the same outcome. *)
Lemma EtaFromRLL_for_ext (self self' : BaroclinicWaveJWTest.t)
    (phys phys' : PhysicalConstants) (dZ dLon dLat dZ' dLon' dLat' : float)
    (Hbody : forall dEta,
        NewtonBody self phys dZ dLon dLat dEta
        = NewtonBody self' phys' dZ' dLon' dLat' dEta)
    (remaining : nat) :
  forall (i : Z) (dEta g t : float),
    EtaFromRLL_for self phys dZ dLon dLat remaining i dEta g t
    = EtaFromRLL_for self' phys' dZ' dLon' dLat' remaining i dEta g t.
Proof.
  induction remaining as [|n IH]; intros i dEta g t; cbn [EtaFromRLL_for].
  - reflexivity.
  - rewrite Hbody.
    destruct (NewtonBody self' phys' dZ' dLon' dLat' dEta) as [[e' g'] t'].
    destruct (fabs (dEta - e') <? Convergence); [reflexivity|apply IH].
Qed.

Lemma EtaFromRLL_ext (self self' : BaroclinicWaveJWTest.t)
    (phys phys' : PhysicalConstants) (dZ dLon dLat dZ' dLon' dLat' : float)
    (Hbody : forall dEta,
        NewtonBody self phys dZ dLon dLat dEta
        = NewtonBody self' phys' dZ' dLon' dLat' dEta)
    (g t : float) :
  EtaFromRLL self phys dZ dLon dLat g t
  = EtaFromRLL self' phys' dZ' dLon' dLat' g t.
Proof. unfold EtaFromRLL. by rewrite (EtaFromRLL_for_ext _ _ _ _ _ _ _ _ _ _ Hbody). Qed.

(** A pass that meets the test computed with numbers. *)
Lemma NewtonBody_finite (self : BaroclinicWaveJWTest.t)
    (phys : PhysicalConstants) (dZ dLon dLat dEta : float) :
  let r := NewtonBody self phys dZ dLon dLat dEta in
  (fabs (dEta - fst (fst r)) <? Convergence) = true ->
  is_finite (fst (fst r)) = true
  /\ is_finite (snd (fst r)) = true
  /\ is_finite dZ = true
  /\ is_finite (GetG phys) = true.
Proof.
  unfold NewtonBody.
  destruct (CalculateGeopotentialTemperature self phys dEta dLon dLat)
    as [g t].
  cbn [fst snd]. intros Hconv.
  apply float_abs_ltb_finite, float_finite_sub in Hconv as [_ Hnew].
  split; [exact Hnew|].
  apply float_finite_sub in Hnew as [_ Hquot].
  apply float_finite_div, float_finite_add in Hquot as [Hgz Hg].
  apply float_finite_mul in Hgz as [HG Hz].
  rewrite float_finite_opp in HG. auto.
Qed.

End EtaFromRLLFacts.

Section TestCaseFacts.

Import BaroclinicWaveJWTest.

Context {libm : CMath}.
Variable self : BaroclinicWaveJWTest.t.
Variable phys : PhysicalConstants.

Local Open Scope float_scope.

(** X1: [EtaFromRLL] returns in the first of its 25 passes in which the
    iterate of the pass and the next differ by less than [Convergence]:
    the next iterate, with the geopotential and temperature computed in
    that pass.  With no such pass it throws. *)
Theorem EtaFromRLL_first_convergence (dZ dLon dLat g0 t0 : float) :
  EtaFromRLL self phys dZ dLon dLat g0 t0
  = match FirstConvergence self phys dZ dLon dLat with
    | Some k =>
        let dEta := NewtonIterate self phys dZ dLon dLat k in
        let gt := CalculateGeopotentialTemperature self phys dEta dLon dLat in
        Returned (NewtonIterate self phys dZ dLon dLat (S k), fst gt, snd gt)
    | None => Thrown "Maximum number of iterations exceeded."
    end.
Proof.
  unfold EtaFromRLL, FirstConvergence.
  pose proof (EtaFromRLL_for_first self phys dZ dLon dLat
                (Z.to_nat MaxIterations) 0 0%Z g0 t0) as H.
  change (NewtonIterate self phys dZ dLon dLat 0) with InitialEta in H.
  destruct (List.find _ _) as [k|].
  - rewrite H. cbn zeta. rewrite NewtonIterate_S. unfold NewtonBody.
    destruct (CalculateGeopotentialTemperature _ _ _ _ _) as [g t].
    reflexivity.
  - destruct H as (g & t & ->). reflexivity.
Qed.

(** X2: what [EtaFromRLL] returns are numbers: the eta and the
    geopotential it returns are neither NaN nor infinite, and neither are
    the height and the gravity it was called with. *)
Theorem EtaFromRLL_returns_numbers (dZ dLon dLat g0 t0 : float)
    (dEta dGeopotential dTemperature : float)
    (Hret : EtaFromRLL self phys dZ dLon dLat g0 t0
            = Returned (dEta, dGeopotential, dTemperature)) :
  is_finite dEta = true
  /\ is_finite dGeopotential = true
  /\ is_finite dZ = true
  /\ is_finite (GetG phys) = true.
Proof.
  unfold EtaFromRLL in Hret.
  destruct (EtaFromRLL_for_exit self phys dZ dLon dLat _ (fun e => eq_refl)
              (Z.to_nat MaxIterations) 0%Z InitialEta g0 t0)
    as [(g & t & Hfell)|(k & _ & Hearly & Hconv)].
  - rewrite Hfell in Hret. discriminate.
  - rewrite Hearly in Hret. injection Hret as <- <- _.
    exact (NewtonBody_finite self phys dZ dLon dLat _ Hconv).
Qed.

(** X3: called with a height or a gravity that is NaN or infinite,
    [EtaFromRLL] throws: the budget of passes is used up. *)
Theorem EtaFromRLL_not_a_number_is_fatal (dZ dLon dLat g0 t0 : float)
    (Hnan : is_finite dZ && is_finite (GetG phys) = false) :
  EtaFromRLL self phys dZ dLon dLat g0 t0
  = Thrown "Maximum number of iterations exceeded.".
Proof.
  unfold EtaFromRLL.
  destruct (EtaFromRLL_for_exit self phys dZ dLon dLat _ (fun e => eq_refl)
              (Z.to_nat MaxIterations) 0%Z InitialEta g0 t0)
    as [(g & t & ->)|(k & _ & _ & Hconv)]; [reflexivity|].
  apply NewtonBody_finite in Hconv as (_ & _ & Hz & HG).
  rewrite Hz, HG in Hnan. discriminate.
Qed.

(** X4: the outcome of [EvaluateReferenceState] does not depend on what the
    locals [dGeopotential] and [dTemperature] hold before they are
    assigned. *)
Theorem EvaluateReferenceState_uninitialised (indeterminate1 indeterminate2 : float)
    (dZ dLon dLat : float) (dState : list float) :
  EvaluateReferenceState indeterminate1 self phys dZ dLon dLat dState
  = EvaluateReferenceState indeterminate2 self phys dZ dLon dLat dState.
Proof.
  unfold EvaluateReferenceState.
  by rewrite (EtaFromRLL_overwrites self phys dZ dLon dLat
                indeterminate1 indeterminate1 indeterminate2 indeterminate2).
Qed.

(** X5: the reference state is the same on every meridian. *)
Theorem EvaluateReferenceState_zonal (indeterminate : float)
    (dZ dLon1 dLon2 dLat : float) (dState : list float) :
  EvaluateReferenceState indeterminate self phys dZ dLon1 dLat dState
  = EvaluateReferenceState indeterminate self phys dZ dLon2 dLat dState.
Proof.
  unfold EvaluateReferenceState.
  by rewrite (EtaFromRLL_ext self self phys phys dZ dLon1 dLat dZ dLon2 dLat
                (fun dEta => eq_refl)).
Qed.

(** X9: [EvaluateReferenceState] stores past the end of [dState] exactly
    when the array has fewer than 5 entries and [EtaFromRLL] returned; when
    [EtaFromRLL] throws, no entry is touched, however short the array. *)
Theorem EvaluateReferenceState_OutOfBounds (indeterminate : float)
    (dZ dLon dLat : float) (dState : list float) :
  EvaluateReferenceState indeterminate self phys dZ dLon dLat dState
    = OutOfBounds
  <-> (length dState < 5)%nat
      /\ exists r,
          EtaFromRLL self phys dZ dLon dLat indeterminate indeterminate
          = Returned r.
Proof.
  unfold EvaluateReferenceState.
  destruct (EtaFromRLL self phys dZ dLon dLat indeterminate indeterminate)
    as [[[dEta g] t]|text|] eqn:Heta; cbn [bind].
  - unfold store.
    repeat (case_decide; cbn [bind]; rewrite ?length_insert in * );
      (split; [intros Hoob; first [discriminate|split; [lia|eauto]]
              |intros [Hlen _]; first [reflexivity|lia]]).
  - split; [discriminate|]. intros (_ & r & Hr). discriminate.
  - exfalso. revert Heta. unfold EtaFromRLL.
    destruct (EtaFromRLL_for_exit self phys dZ dLon dLat _ (fun e => eq_refl)
                (Z.to_nat MaxIterations) 0%Z InitialEta
                indeterminate indeterminate)
      as [(g & t & ->)|(k & _ & -> & _)]; discriminate.
Qed.

End TestCaseFacts.

(** ** Symmetries of the test case *)

Section SymmetryFacts.

Import BaroclinicWaveJWTest.

Context {libm : CMath}.
Variable self : BaroclinicWaveJWTest.t.
Variable phys : PhysicalConstants.

Local Open Scope float_scope.

(** Signs are moved out of products, and double signs dropped. *)
Ltac float_signs :=
  repeat first [rewrite float_mul_opp_l | rewrite float_mul_opp_r
               |rewrite float_opp_involutive].

Lemma CalculateGeopotentialTemperature_hemispheres (dEta dLon dLat : float)
    (Hsin : sin (- dLat) = - sin dLat) (Hcos : cos (- dLat) = cos dLat) :
  CalculateGeopotentialTemperature self phys dEta dLon (- dLat)
  = CalculateGeopotentialTemperature self phys dEta dLon dLat.
Proof.
  unfold CalculateGeopotentialTemperature. cbv zeta.
  rewrite Hsin, Hcos. float_signs. reflexivity.
Qed.

Lemma NewtonBody_hemispheres (dZ dLon dLat dEta : float)
    (Hsin : sin (- dLat) = - sin dLat) (Hcos : cos (- dLat) = cos dLat) :
  NewtonBody self phys dZ dLon (- dLat) dEta
  = NewtonBody self phys dZ dLon dLat dEta.
Proof.
  unfold NewtonBody.
  by rewrite CalculateGeopotentialTemperature_hemispheres.
Qed.

(** X6: the topography is the same at a latitude and at its mirror image
    across the equator, for a sine that is odd and a cosine that is even at
    that latitude. *)
Theorem EvaluateTopography_hemispheres (dLon dLat : float)
    (Hsin : sin (- dLat) = - sin dLat) (Hcos : cos (- dLat) = cos dLat) :
  EvaluateTopography self phys dLon (- dLat)
  = EvaluateTopography self phys dLon dLat.
Proof.
  unfold EvaluateTopography. cbv zeta.
  rewrite Hsin, Hcos. float_signs. reflexivity.
Qed.

(** X7: the reference state is the same at a latitude and at its mirror
    image across the equator, for a sine that is odd at the latitude and
    at twice the latitude and a cosine that is even at the latitude. *)
Theorem EvaluateReferenceState_hemispheres (indeterminate : float)
    (dZ dLon dLat : float) (dState : list float)
    (Hsin : sin (- dLat) = - sin dLat) (Hcos : cos (- dLat) = cos dLat)
    (Hsin2 : sin (- (2.0 * dLat)) = - sin (2.0 * dLat)) :
  EvaluateReferenceState indeterminate self phys dZ dLon (- dLat) dState
  = EvaluateReferenceState indeterminate self phys dZ dLon dLat dState.
Proof.
  unfold EvaluateReferenceState.
  rewrite (EtaFromRLL_ext self self phys phys dZ dLon (- dLat) dZ dLon dLat
             (fun dEta => NewtonBody_hemispheres dZ dLon dLat dEta Hsin Hcos)).
  destruct (EtaFromRLL self phys dZ dLon dLat indeterminate indeterminate)
    as [[[dEta g] t]|text|]; cbn [bind]; [|reflexivity|reflexivity].
  rewrite float_mul_opp_r, Hsin2. float_signs. reflexivity.
Qed.

(** X8: with the perturbation, the state depends on the longitude only
    through the cosine of its distance from the meridian of the centre of
    the perturbation. *)
Theorem EvaluatePointwiseState_meridian (indeterminate : float) (Time : Type)
    (time : Time) (dZ dLon1 dLon2 dLat : float) (dState dTracer : list float)
    (Hcos : cos (dLon1 - ParamPertLon self) = cos (dLon2 - ParamPertLon self)) :
  EvaluatePointwiseState indeterminate Time self phys time dZ dLon1 dLat
    dState dTracer
  = EvaluatePointwiseState indeterminate Time self phys time dZ dLon2 dLat
      dState dTracer.
Proof.
  unfold EvaluatePointwiseState, EvaluateReferenceState.
  rewrite (EtaFromRLL_ext self self phys phys dZ dLon1 dLat dZ dLon2 dLat
             (fun dEta => eq_refl)).
  rewrite Hcos. reflexivity.
Qed.

End SymmetryFacts.

(** *** Runs at concrete points *)

#[local] Existing Instance ReferenceCMath.


Lemma EtaFromRLL_returns_numbers_witness :
  exists dEta dGeopotential dTemperature : float,
    BaroclinicWaveJWTest.EtaFromRLL (libm := ReferenceCMath) JW Earth
      1000 0 0.7 0 0 = Returned (dEta, dGeopotential, dTemperature)
    /\ is_finite dEta = true
    /\ is_finite dGeopotential = true
    /\ is_finite 1000 = true
    /\ is_finite (GetG Earth) = true.
Proof.
  do 3 eexists. split.
  - vm_compute. reflexivity.
  - eapply (EtaFromRLL_returns_numbers (libm := ReferenceCMath) JW Earth
              1000 0 0.7 0 0).
    vm_compute. reflexivity.
Defined.

Lemma EtaFromRLL_not_a_number_is_fatal_witness :
  is_finite infinity && is_finite (GetG Earth) = false
  /\ BaroclinicWaveJWTest.EtaFromRLL (libm := ReferenceCMath) JW Earth
       infinity 0 0.7 0 0
     = Thrown "Maximum number of iterations exceeded.".
Proof.
  split; [reflexivity|].
  apply (EtaFromRLL_not_a_number_is_fatal (libm := ReferenceCMath)).
  reflexivity.
Defined.

Lemma EvaluateTopography_hemispheres_witness :
  let dLat := 0.7%float in
  sin (CMath := ReferenceCMath) (- dLat) = (- sin dLat)%float
  /\ cos (CMath := ReferenceCMath) (- dLat) = cos dLat
  /\ BaroclinicWaveJWTest.EvaluateTopography (libm := ReferenceCMath)
       JW Earth 0 (- dLat)
     = BaroclinicWaveJWTest.EvaluateTopography JW Earth 0 dLat.
Proof.
  intros dLat.
  assert (Hsin : sin (CMath := ReferenceCMath) (- dLat) = (- sin dLat)%float)
    by (vm_compute; reflexivity).
  assert (Hcos : cos (CMath := ReferenceCMath) (- dLat) = cos dLat)
    by (vm_compute; reflexivity).
  split; [exact Hsin|]. split; [exact Hcos|].
  exact (EvaluateTopography_hemispheres (libm := ReferenceCMath)
           JW Earth 0 dLat Hsin Hcos).
Defined.

Lemma EvaluateReferenceState_hemispheres_witness :
  let dLat := 0.7%float in
  let dState := [0; 0; 0; 0; 0]%float in
  sin (CMath := ReferenceCMath) (- dLat) = (- sin dLat)%float
  /\ cos (CMath := ReferenceCMath) (- dLat) = cos dLat
  /\ sin (CMath := ReferenceCMath) (- (2.0 * dLat)) = (- sin (2.0 * dLat))%float
  /\ BaroclinicWaveJWTest.EvaluateReferenceState (libm := ReferenceCMath) 0
       JW Earth 1000 0 (- dLat) dState
     = BaroclinicWaveJWTest.EvaluateReferenceState 0 JW Earth 1000 0 dLat dState.
Proof.
  intros dLat dState.
  assert (Hsin : sin (CMath := ReferenceCMath) (- dLat) = (- sin dLat)%float)
    by (vm_compute; reflexivity).
  assert (Hcos : cos (CMath := ReferenceCMath) (- dLat) = cos dLat)
    by (vm_compute; reflexivity).
  assert (Hsin2 : sin (CMath := ReferenceCMath) (- (2.0 * dLat))
                  = (- sin (2.0 * dLat))%float)
    by (vm_compute; reflexivity).
  split; [exact Hsin|]. split; [exact Hcos|]. split; [exact Hsin2|].
  exact (EvaluateReferenceState_hemispheres (libm := ReferenceCMath)
           JW Earth 0 1000 0 dLat dState Hsin Hcos Hsin2).
Defined.

Lemma EvaluatePointwiseState_meridian_witness :
  let dLon1 := (BaroclinicWaveJWTest.ParamPertLon JWExp + 0.125)%float in
  let dLon2 := (BaroclinicWaveJWTest.ParamPertLon JWExp - 0.125)%float in
  let dState := [0; 0; 0; 0; 0]%float in
  cos (CMath := ReferenceCMath)
    (dLon1 - BaroclinicWaveJWTest.ParamPertLon JWExp)
  = cos (dLon2 - BaroclinicWaveJWTest.ParamPertLon JWExp)
  /\ BaroclinicWaveJWTest.EvaluatePointwiseState (libm := ReferenceCMath) 0
       unit JWExp Earth tt 5000 dLon1 0.7 dState []
     = BaroclinicWaveJWTest.EvaluatePointwiseState 0 unit JWExp Earth tt
         5000 dLon2 0.7 dState [].
Proof.
  intros dLon1 dLon2 dState.
  assert (Hcos : cos (CMath := ReferenceCMath)
                   (dLon1 - BaroclinicWaveJWTest.ParamPertLon JWExp)
                 = cos (dLon2 - BaroclinicWaveJWTest.ParamPertLon JWExp))
    by (vm_compute; reflexivity).
  split; [exact Hcos|].
  exact (EvaluatePointwiseState_meridian (libm := ReferenceCMath)
           JWExp Earth 0 unit tt 5000 dLon1 dLon2 0.7 dState [] Hcos).
Defined.

(** ** The surface and the errors of the test case *)

Section SurfaceFacts.

Import BaroclinicWaveJWTest.

Context {libm : CMath}.
Variable self : BaroclinicWaveJWTest.t.
Variable phys : PhysicalConstants.

Local Open Scope float_scope.

(** Adding to zero gives the other term, but for the negative zero. *)
Lemma float_add_zero_l (s : float) :
  0 + s = s \/ (s = -0 /\ 0 + s = 0).
Proof.
  assert (Hsum : Prim2SF (0 + s) = SF64add (S754_zero false) (Prim2SF s))
    by (rewrite FloatAxioms.add_spec; reflexivity).
  destruct (Prim2SF s) as [[|]|sy| |sy my ey] eqn:Hs;
    try (left; apply Prim2SF_inj; rewrite Hsum, Hs; reflexivity).
  right. split; apply Prim2SF_inj; [rewrite Hs|rewrite Hsum]; reflexivity.
Qed.

(** X10: the topography is the level [eta = 1]: the geopotential that
    [CalculateGeopotentialTemperature] gives for [dEta = 1.0], divided by
    the gravity, is the height that [EvaluateTopography] returns, for a
    [pow] with [pow(1, y) = 1], a tropopause below [eta = 1] and constants
    for which the mean geopotential term [T0 g / Gamma * 0] is zero.  The
    one exception is a surface geopotential of negative zero, which the
    sum turns into zero. *)
Theorem EvaluateTopography_is_eta_one (dLon dLon' dLat : float)
    (Hpow : pow 1.0 (GetR phys * ParamLapseRate self / GetG phys) = 1.0)
    (Htropopause : (1.0 <? ParamTropopauseEta self) = false)
    (Hmean : ParamT0 self * GetG phys / ParamLapseRate self * 0 = 0) :
  let dGeopotential :=
    fst (CalculateGeopotentialTemperature self phys 1.0 dLon' dLat) in
  EvaluateTopography self phys dLon dLat = dGeopotential / GetG phys
  \/ (dGeopotential = 0
      /\ EvaluateTopography self phys dLon dLat = -0 / GetG phys).
Proof.
  unfold CalculateGeopotentialTemperature, EvaluateTopography. cbv zeta.
  rewrite Htropopause, Hpow. cbn [fst].
  change (1.0 - 1.0) with 0. rewrite Hmean.
  set (S := ParamU0 self * pow (cos (0.5 * M_PI * (1.0 - ParamEta0 self))) 1.5
            * _).
  destruct (float_add_zero_l S) as [->|[-> ->]]; auto.
Qed.

(** X11: the one exception that [EvaluatePointwiseState] can end with is
    that of the used up budget of [EtaFromRLL]. *)
Theorem EvaluatePointwiseState_Thrown (indeterminate : float) (Time : Type)
    (time : Time) (dZ dLon dLat : float) (dState dTracer : list float)
    (text : string)
    (Hthrown : EvaluatePointwiseState indeterminate Time self phys time
                 dZ dLon dLat dState dTracer = Thrown text) :
  text = "Maximum number of iterations exceeded."%string
  /\ EtaFromRLL self phys dZ dLon dLat indeterminate indeterminate
     = Thrown text.
Proof.
  revert Hthrown. unfold EvaluatePointwiseState, EvaluateReferenceState.
  assert (Heta : EtaFromRLL self phys dZ dLon dLat indeterminate indeterminate
                 = Thrown "Maximum number of iterations exceeded."
                 \/ exists r, EtaFromRLL self phys dZ dLon dLat
                                indeterminate indeterminate = Returned r).
  { unfold EtaFromRLL.
    destruct (EtaFromRLL_for_exit self phys dZ dLon dLat _ (fun e => eq_refl)
                (Z.to_nat MaxIterations) 0%Z InitialEta
                indeterminate indeterminate)
      as [(g & t & ->)|(k & _ & -> & _)]; eauto. }
  destruct Heta as [->|[[[dEta g] t] ->]]; cbn [bind].
  - intros [= <-]. auto.
  - unfold store, load.
    repeat (case_decide; cbn [bind]); try discriminate;
      destruct (PerturbationType_eqb _ _); try discriminate;
      destruct (_ <? 1.0); try discriminate;
      destruct (_ !! 0%nat); cbn [bind]; discriminate.
Qed.

End SurfaceFacts.

Lemma EvaluateTopography_is_eta_one_witness :
  let dGeopotential :=
    fst (BaroclinicWaveJWTest.CalculateGeopotentialTemperature
           JW Earth 1.0 0 0.7) in
  pow 1.0 (GetR Earth * BaroclinicWaveJWTest.ParamLapseRate JW / GetG Earth)
  = 1.0%float
  /\ (1.0 <? BaroclinicWaveJWTest.ParamTropopauseEta JW)%float = false
  /\ (BaroclinicWaveJWTest.ParamT0 JW * GetG Earth
      / BaroclinicWaveJWTest.ParamLapseRate JW * 0)%float = 0%float
  /\ (BaroclinicWaveJWTest.EvaluateTopography JW Earth 0 0.7
      = (dGeopotential / GetG Earth)%float
      \/ (dGeopotential = 0%float
          /\ BaroclinicWaveJWTest.EvaluateTopography JW Earth 0 0.7
             = (-0 / GetG Earth)%float)).
Proof.
  intros dGeopotential.
  split; [vm_compute; reflexivity|].
  split; [vm_compute; reflexivity|].
  split; [vm_compute; reflexivity|].
  apply (EvaluateTopography_is_eta_one JW Earth 0 0 0.7);
    vm_compute; reflexivity.
Defined.

Lemma EvaluatePointwiseState_Thrown_witness :
  let text := "Maximum number of iterations exceeded."%string in
  BaroclinicWaveJWTest.EvaluatePointwiseState 0 unit JWExp Earth tt
    1.0e6 0 0.7 [0; 0; 0; 0; 0]%float [] = Thrown text
  /\ text = "Maximum number of iterations exceeded."%string
  /\ BaroclinicWaveJWTest.EtaFromRLL JWExp Earth 1.0e6 0 0.7 0 0 = Thrown text.
Proof.
  intros text.
  assert (Hthrown : BaroclinicWaveJWTest.EvaluatePointwiseState 0 unit JWExp
                      Earth tt 1.0e6 0 0.7 [0; 0; 0; 0; 0]%float []
                    = Thrown text)
    by (vm_compute; reflexivity).
  split; [exact Hthrown|].
  exact (EvaluatePointwiseState_Thrown JWExp Earth 0 unit tt 1.0e6 0 0.7
           [0; 0; 0; 0; 0]%float [] text Hthrown).
Defined.
